(** * The Autodesk Forge provider of goth

    A shallow embedding of [providers/autodeskforge/autodeskforge.go].

    Go strings are byte sequences and are modelled by [string]; [int] values
    are modelled by [Z]; a pointer that may be nil is an [option].  The
    packages the provider links against (fmt, strings, net/url, oauth2,
    net/http, encoding/json, goth) are modelled in modules of their own, as
    far as the provider uses them. *)

From Stdlib Require Import String Ascii List ZArith Bool Lia Permutation.
From Stdlib Require Import DecimalString DecimalZ DecimalPos.
Import ListNotations.

Set Warnings "-register-all".

Local Open Scope list_scope.
Local Open Scope string_scope.

(** ** Errors and panics *)

(** A Go [error] value: the dynamic types that reach the provider. *)
Inductive error : Type :=
| errorString (msg : string)                        (* errors.New, fmt.Errorf *)
| SyntaxError (msg : string)                        (* *json.SyntaxError *)
| UnmarshalTypeError (value : string) (type_ : string)  (* *json.UnmarshalTypeError *)
| foreignError (type_ : string) (msg : string).     (* any other implementation *)

(** The [Error()] method. *)
Definition Error (e : error) : string :=
  match e with
  | errorString msg => msg
  | SyntaxError msg => msg
  | UnmarshalTypeError value type_ =>
      "json: cannot unmarshal " ++ value ++ " into Go value of type " ++ type_
  | foreignError _ msg => msg
  end.

(** A run-time panic. *)
Inductive panic : Type :=
| TypeAssertionError (dynamic : option string) (asserted : string)
| nilDereference.

(** ** Package fmt *)
Module fmt.

(** The verb [%d] applied to an [int]. *)
Definition d (n : Z) : string := NilZero.string_of_int (Z.to_int n).

(** [fmt.Errorf] builds an [*errors.errorString] once the verbs are
    expanded; the expansion is written at each call site. *)
Definition Errorf (expanded : string) : error := errorString expanded.

End fmt.

(** ** Package strings *)
Module strings.

Fixpoint HasPrefix (s pre : string) {struct pre} : bool :=
  match pre, s with
  | EmptyString, _ => true
  | String a pre', String b s' => Ascii.eqb a b && HasPrefix s' pre'
  | String _ _, EmptyString => false
  end.

Fixpoint Contains (s substr : string) : bool :=
  HasPrefix s substr ||
  match s with
  | EmptyString => false
  | String _ s' => Contains s' substr
  end.

Fixpoint Join (elems : list string) (sep : string) : string :=
  match elems with
  | [] => EmptyString
  | [x] => x
  | x :: rest => x ++ sep ++ Join rest sep
  end.

End strings.

(** ** Package time *)
Module time.

(** An instant: seconds and nanoseconds counted from the zero [Time],
    January 1, year 1, 00:00:00 UTC. *)
Record Time : Type := { sec : Z; nsec : Z }.

Definition zero : Time := {| sec := 0; nsec := 0 |}.

End time.

(** ** Package net/url *)
Module url.

Definition isAlnum (c : ascii) : bool :=
  let n := nat_of_ascii c in
  ((48 <=? n)%nat && (n <=? 57)%nat) || ((65 <=? n)%nat && (n <=? 90)%nat)
  || ((97 <=? n)%nat && (n <=? 122)%nat).

(** [shouldEscape c encodeQueryComponent]: everything but the unreserved
    characters. *)
Definition shouldEscape (c : ascii) : bool :=
  negb (isAlnum c || Ascii.eqb c "-" || Ascii.eqb c "_" || Ascii.eqb c "."
        || Ascii.eqb c "~").

Definition upperhex (n : nat) : ascii :=
  if (n <? 10)%nat then ascii_of_nat (48 + n) else ascii_of_nat (55 + n).

Fixpoint QueryEscape (s : string) : string :=
  match s with
  | EmptyString => EmptyString
  | String c r =>
      if Ascii.eqb c " " then String "+" (QueryEscape r)
      else if shouldEscape c then
        String "%" (String (upperhex (nat_of_ascii c / 16))
                      (String (upperhex (nat_of_ascii c mod 16)) (QueryEscape r)))
      else String c (QueryEscape r)
  end.

(** [url.Values]: a map from keys to lists of values. *)
Definition Values : Type := list (string * list string).

(** [v.Set(key, value)] replaces whatever [key] was bound to. *)
Definition Set_ (v : Values) (key value : string) : Values :=
  (key, [value]) :: filter (fun kv => negb (fst kv =? key)) v.

Fixpoint insertKey (kv : string * list string) (sorted : Values) : Values :=
  match sorted with
  | [] => [kv]
  | kv' :: rest =>
      if String.leb (fst kv) (fst kv') then kv :: sorted
      else kv' :: insertKey kv rest
  end.

Definition sortedByKey (v : Values) : Values := fold_right insertKey [] v.

(** [v.Encode()]: the pairs, sorted by key, in URL-encoded form. *)
Definition Encode (v : Values) : string :=
  strings.Join
    (flat_map (fun kv => map (fun x => QueryEscape (fst kv) ++ "=" ++ QueryEscape x)
                           (snd kv))
              (sortedByKey v))
    "&".

End url.

(** ** Package golang.org/x/oauth2 *)
Module oauth2.

Record Endpoint : Type := { AuthURL : string; TokenURL : string }.

Record Config : Type := {
  ClientID : string;
  ClientSecret : string;
  Endpoint_ : Endpoint;
  RedirectURL : string;
  Scopes : list string
}.

(** The query [c.AuthCodeURL(state)] asks for: the redirect URL, the scopes
    and the state are left out when they are empty. *)
Definition authCodeValues (c : Config) (state : string) : url.Values :=
  let v : url.Values :=
    [("response_type", ["code"]); ("client_id", [ClientID c])] in
  let v := if RedirectURL c =? EmptyString then v
           else url.Set_ v "redirect_uri" (RedirectURL c) in
  let v := if (0 <? length (Scopes c))%nat
           then url.Set_ v "scope" (strings.Join (Scopes c) " ") else v in
  if state =? EmptyString then v else url.Set_ v "state" state.

(** [c.AuthCodeURL(state)]: the endpoint's authorization URL followed by
    the encoded query, joined by [&] when the URL has a query already. *)
Definition AuthCodeURL (c : Config) (state : string) : string :=
  AuthURL (Endpoint_ c)
  ++ (if strings.Contains (AuthURL (Endpoint_ c)) "?" then "&" else "?")
  ++ url.Encode (authCodeValues c state).

(** [oauth2.Token] *)
Record Token : Type := {
  AccessToken : string;
  TokenType : string;
  RefreshToken : string;
  Expiry : time.Time
}.

End oauth2.

(** ** Execution: results, panics and the effects of a call *)

Inductive outcome (A : Type) : Type :=
| returns (a : A)
| panics (p : panic).
Arguments returns {A} a.
Arguments panics {A} p.

(** A computation over a world [W]: it returns or panics, and leaves a
    world behind. *)
Definition M (W A : Type) : Type := W -> outcome A * W.

Definition ret {W A : Type} (a : A) : M W A := fun w => (returns a, w).

Definition raise {W A : Type} (p : panic) : M W A := fun w => (panics p, w).

Definition bind {W A B : Type} (m : M W A) (k : A -> M W B) : M W B :=
  fun w =>
    match m w with
    | (returns a, w') => k a w'
    | (panics p, w') => (panics p, w')
    end.

Notation "x <- m ;; k" := (bind m (fun x => k))
  (at level 61, m at next level, right associativity).
Notation "m ;;; k" := (bind m (fun _ => k))
  (at level 61, right associativity).

(** Dereferencing a pointer that may be nil. *)
Definition deref {W A : Type} (ptr : option A) : M W A :=
  match ptr with
  | Some a => ret a
  | None => raise nilDereference
  end.

(** ** Package net/http (with io/ioutil) *)
Module http.

Definition StatusOK : Z := 200.

(** [http.Header]: a map from canonical keys to lists of values. *)
Definition Header : Type := list (string * list string).

Fixpoint Add (h : Header) (key value : string) : Header :=
  match h with
  | [] => [(key, [value])]
  | (k, vs) :: rest =>
      if k =? key then (k, (vs ++ [value])%list) :: rest
      else (k, vs) :: Add rest key value
  end.

Record Request : Type := {
  Method : string;
  URL : string;
  Header_ : Header
}.

(** [req.Header.Add(key, value)] *)
Definition HeaderAdd (req : Request) (key value : string) : Request :=
  {| Method := Method req; URL := URL req;
     Header_ := Add (Header_ req) key value |}.

(** A response body: what reading it to the end delivers. *)
Record ReadCloser : Type := {
  content : string;
  readErr : option error
}.

Record Response : Type := {
  StatusCode : Z;
  Body : ReadCloser
}.

(** An [*http.Client], by what it answers to a request. *)
Record Client : Type := {
  answer : Request -> option Response * option error
}.

(** What a call does to the outside. *)
Inductive event : Type :=
| Sent (req : Request)       (* an HTTP request went out *)
| BodyRead                   (* a response body was read to its end *)
| BodyClosed.                (* a response body was closed *)

Definition World : Type := list event.

(** [c.Do(req)] *)
Definition Do (c : Client) (req : Request)
  : M World (option Response * option error) :=
  fun w => (returns (answer c req), (w ++ [Sent req])%list).

(** [body.Close()] *)
Definition Close (body : ReadCloser) : M World unit :=
  fun w => (returns tt, (w ++ [BodyClosed])%list).

(** [ioutil.ReadAll(body)] *)
Definition ReadAll (body : ReadCloser) : M World (string * option error) :=
  fun w => (returns (content body, readErr body), (w ++ [BodyRead])%list).

(** The number of HTTP requests a world has seen. *)
Definition requests (w : World) : nat :=
  length (filter (fun e => match e with Sent _ => true | _ => false end) w).

End http.

(** ** Package encoding/json *)
Module json.

(** A JSON value, as the scanner delimits it in the input. *)
Inductive Value : Type :=
| VNull
| VBool (b : bool)
| VNumber (literal : string)
| VString (s : string)
| VArray (elems : list Value)
| VObject (members : list (string * Value)).

(** The name an [UnmarshalTypeError] gives to the offending value. *)
Definition kind (x : Value) : string :=
  match x with
  | VNull => "null"
  | VBool _ => "bool"
  | VNumber _ => "number"
  | VString _ => "string"
  | VArray _ => "array"
  | VObject _ => "object"
  end.

(** Keys are matched to field names exactly or, failing that, up to the
    case of letters.  Two letters outside ASCII fold to ASCII ones: the
    long s (U+017F, bytes 197 191) to S and the Kelvin sign (U+212A, bytes
    226 132 170) to K.  The other bytes above 127 are left as they are:
    no fold of theirs meets a field name written in ASCII. *)
Definition toUpper (c : ascii) : ascii :=
  let n := nat_of_ascii c in
  if ((97 <=? n)%nat && (n <=? 122)%nat)%bool then ascii_of_nat (n - 32) else c.

Fixpoint foldName (s : string) : string :=
  match s with
  | EmptyString => EmptyString
  | String c r =>
      let plain := String (toUpper c) (foldName r) in
      match r with
      | String c1 r1 =>
          if (Ascii.eqb c "197" && Ascii.eqb c1 "191")%bool
          then String "S" (foldName r1)
          else
            match r1 with
            | String c2 r2 =>
                if (Ascii.eqb c "226" && Ascii.eqb c1 "132"
                    && Ascii.eqb c2 "170")%bool
                then String "K" (foldName r2)
                else plain
            | EmptyString => plain
            end
      | EmptyString => plain
      end
  end.

Definition equalFold (a b : string) : bool := foldName a =? foldName b.

(** Only the first error of a decoding is kept. *)
Definition saveError (saved e : option error) : option error :=
  match saved with
  | Some _ => saved
  | None => e
  end.

Section Struct.
Variable T : Type.

(** A field of the struct type [T]: its JSON name (from the tag, or the
    Go name) and how a value is stored into it. *)
Record field : Type := {
  name : string;
  store : Value -> T -> T * option error
}.

Definition findField (fields : list field) (key : string) : option field :=
  match find (fun f => name f =? key) fields with
  | Some f => Some f
  | None => find (fun f => equalFold (name f) key) fields
  end.

(** The members of an object are stored in the order of the input; a key
    that names no field is skipped; a value of the wrong kind leaves the
    field alone and the error is saved. *)
Definition storeMember (fields : list field) (acc : T * option error)
           (member : string * Value) : T * option error :=
  match findField fields (fst member) with
  | None => acc
  | Some f =>
      let r := store f (snd member) (fst acc) in
      (fst r, saveError (snd acc) (snd r))
  end.

Definition object (fields : list field) (members : list (string * Value))
           (v : T) : T * option error :=
  fold_left (storeMember fields) members (v, None).

Definition structValue (typeName : string) (fields : list field)
           (x : Value) (v : T) : T * option error :=
  match x with
  | VNull => (v, None)
  | VObject members => object fields members v
  | _ => (v, Some (UnmarshalTypeError (kind x) typeName))
  end.

(** [json.NewDecoder(r).Decode(&v)] for a reader that delivers [text]:
    the next value of the input is delimited by [scan], then stored. *)
Definition Decode (scan : string -> Value + error) (typeName : string)
           (fields : list field) (text : string) (v : T) : T * option error :=
  match scan text with
  | inr e => (v, Some e)
  | inl x => structValue typeName fields x v
  end.
End Struct.

Arguments name {T} f.
Arguments store {T} f.
Arguments findField {T} fields key.
Arguments storeMember {T} fields acc member.
Arguments object {T} fields members v.
Arguments structValue {T} typeName fields x v.
Arguments Decode {T} scan typeName fields text v.

(** A Go [string] takes a JSON string; [null] leaves it alone. *)
Definition stringValue (x : Value) (old : string) : string * option error :=
  match x with
  | VString s => (s, None)
  | VNull => (old, None)
  | _ => (old, Some (UnmarshalTypeError (kind x) "string"))
  end.

Definition stringField {T : Type} (jsonName : string) (get : T -> string)
           (set : string -> T -> T) : field T :=
  {| name := jsonName;
     store := fun x v => let r := stringValue x (get v) in (set (fst r) v, snd r) |}.

Definition structField {T S : Type} (jsonName typeName : string)
           (fields : list (field S)) (get : T -> S) (set : S -> T -> T) : field T :=
  {| name := jsonName;
     store := fun x v =>
                let r := structValue typeName fields x (get v) in
                (set (fst r) v, snd r) |}.

End json.

(** ** A scanner for JSON texts

    The grammar of RFC 8259, as [encoding/json] reads it: the first value of
    the input is delimited and what follows it is left unread.  Bytes above
    127 are taken as they come. *)
Module scanner.
Import json.

Definition quote : ascii := "034"%char.
Definition backslash : ascii := "092"%char.

Definition isSpace (c : ascii) : bool :=
  Ascii.eqb c " " || Ascii.eqb c "009" || Ascii.eqb c "010" || Ascii.eqb c "013".

Fixpoint skipSpace (s : string) : string :=
  match s with
  | String c r => if isSpace c then skipSpace r else s
  | EmptyString => s
  end.

Definition isDigit (c : ascii) : bool :=
  let n := nat_of_ascii c in ((48 <=? n)%nat && (n <=? 57)%nat)%bool.

(** The longest run of digits a text starts with, and the rest. *)
Fixpoint digits (s : string) : string * string :=
  match s with
  | String c r =>
      if isDigit c then let dr := digits r in (String c (fst dr), snd dr)
      else (EmptyString, s)
  | EmptyString => (EmptyString, s)
  end.

Definition digits1 (s : string) : option (string * string) :=
  match digits s with
  | (EmptyString, _) => None
  | dr => Some dr
  end.

Definition scanNumber (s : string) : option (string * string) :=
  let '(sign, s) := match s with
                    | String "-"%char r => ("-", r)
                    | _ => (EmptyString, s)
                    end in
  match s with
  | String c r =>
      if isDigit c then
        let '(int, s) := if Ascii.eqb c "0" then (String c EmptyString, r)
                         else digits s in
        let frac := match s with
                    | String "."%char r =>
                        match digits1 r with
                        | Some (ds, r') => Some ("." ++ ds, r')
                        | None => None
                        end
                    | _ => Some (EmptyString, s)
                    end in
        match frac with
        | None => None
        | Some (frac, s) =>
            let exp (e : string) (r : string) :=
              let '(sg, r) := match r with
                              | String "+"%char r' => ("+", r')
                              | String "-"%char r' => ("-", r')
                              | _ => (EmptyString, r)
                              end in
              match digits1 r with
              | Some (ds, r') => Some (sign ++ int ++ frac ++ e ++ sg ++ ds, r')
              | None => None
              end in
            match s with
            | String "e"%char r => exp "e" r
            | String "E"%char r => exp "E" r
            | _ => Some (sign ++ int ++ frac, s)
            end
        end
      else None
  | EmptyString => None
  end.

Definition hexval (c : ascii) : option N :=
  let n := N_of_ascii c in
  if ((48 <=? n) && (n <=? 57))%N then Some (n - 48)%N
  else if ((97 <=? n) && (n <=? 102))%N then Some (n - 87)%N
  else if ((65 <=? n) && (n <=? 70))%N then Some (n - 55)%N
  else None.

Definition hex4 (a b c d : ascii) : option N :=
  match hexval a, hexval b, hexval c, hexval d with
  | Some a, Some b, Some c, Some d => Some (((a * 16 + b) * 16 + c) * 16 + d)%N
  | _, _, _, _ => None
  end.

(** [utf8.EncodeRune] *)
Definition EncodeRune (r : N) : string :=
  let b (n : N) := ascii_of_N n in
  if (r <? 128)%N then String (b r) EmptyString
  else if (r <? 2048)%N then
    String (b (192 + r / 64)%N) (String (b (128 + r mod 64)%N) EmptyString)
  else if (r <? 65536)%N then
    String (b (224 + r / 4096)%N)
      (String (b (128 + (r / 64) mod 64)%N)
         (String (b (128 + r mod 64)%N) EmptyString))
  else
    String (b (240 + r / 262144)%N)
      (String (b (128 + (r / 4096) mod 64)%N)
         (String (b (128 + (r / 64) mod 64)%N)
            (String (b (128 + r mod 64)%N) EmptyString))).

Definition RuneError : N := 65533.

Definition unescape (c : ascii) : option ascii :=
  if Ascii.eqb c quote then Some quote
  else if Ascii.eqb c backslash then Some backslash
  else if Ascii.eqb c "/" then Some "/"%char
  else if Ascii.eqb c "b" then Some "008"%char
  else if Ascii.eqb c "f" then Some "012"%char
  else if Ascii.eqb c "n" then Some "010"%char
  else if Ascii.eqb c "r" then Some "013"%char
  else if Ascii.eqb c "t" then Some "009"%char
  else None.

Definition prepend (pre : string) (r : option (string * string))
  : option (string * string) :=
  match r with
  | Some (str, rest) => Some (pre ++ str, rest)
  | None => None
  end.

(** The text of a string literal from behind its opening quote, unquoted,
    and what follows its closing quote. *)
Fixpoint scanString (s : string) : option (string * string) :=
  match s with
  | EmptyString => None
  | String c r =>
      if Ascii.eqb c quote then Some (EmptyString, r)
      else if Ascii.eqb c backslash then
        match r with
        | String "u"%char (String h1 (String h2 (String h3 (String h4 r1)))) =>
            match hex4 h1 h2 h3 h4 with
            | None => None
            | Some n =>
                if ((55296 <=? n) && (n <? 56320))%N then
                  match r1 with
                  | String "092"%char
                      (String "u"%char
                         (String l1 (String l2 (String l3 (String l4 r2))))) =>
                      match hex4 l1 l2 l3 l4 with
                      | Some m =>
                          if ((56320 <=? m) && (m <? 57344))%N then
                            prepend
                              (EncodeRune ((n - 55296) * 1024 + (m - 56320) + 65536)%N)
                              (scanString r2)
                          else prepend (EncodeRune RuneError) (scanString r1)
                      | None => prepend (EncodeRune RuneError) (scanString r1)
                      end
                  | _ => prepend (EncodeRune RuneError) (scanString r1)
                  end
                else if ((56320 <=? n) && (n <? 57344))%N then
                  prepend (EncodeRune RuneError) (scanString r1)
                else prepend (EncodeRune n) (scanString r1)
            end
        | String e r1 =>
            match unescape e with
            | Some c' => prepend (String c' EmptyString) (scanString r1)
            | None => None
            end
        | EmptyString => None
        end
      else if (nat_of_ascii c <? 32)%nat then None
      else prepend (String c EmptyString) (scanString r)
  end.

Fixpoint stripPrefix (pre s : string) : option string :=
  match pre, s with
  | EmptyString, _ => Some s
  | String a pre', String b s' => if Ascii.eqb a b then stripPrefix pre' s' else None
  | String _ _, EmptyString => None
  end.

(** A value, and the members of an object or the elements of an array from
    behind the opening bracket; [fuel] bounds the depth of the calls, and a
    scan that runs out of it fails. *)
Fixpoint scanValue (fuel : nat) (s : string) : option (Value * string) :=
  match fuel with
  | O => None
  | S fuel =>
      match skipSpace s with
      | EmptyString => None
      | String c r =>
          if Ascii.eqb c "{" then
            match skipSpace r with
            | String "}"%char r' => Some (VObject [], r')
            | _ =>
                match scanMembers fuel r with
                | Some (ms, r') => Some (VObject ms, r')
                | None => None
                end
            end
          else if Ascii.eqb c "[" then
            match skipSpace r with
            | String "]"%char r' => Some (VArray [], r')
            | _ =>
                match scanElements fuel r with
                | Some (xs, r') => Some (VArray xs, r')
                | None => None
                end
            end
          else if Ascii.eqb c quote then
            match scanString r with
            | Some (str, r') => Some (VString str, r')
            | None => None
            end
          else if Ascii.eqb c "t" then
            option_map (fun r' => (VBool true, r')) (stripPrefix "rue" r)
          else if Ascii.eqb c "f" then
            option_map (fun r' => (VBool false, r')) (stripPrefix "alse" r)
          else if Ascii.eqb c "n" then
            option_map (fun r' => (VNull, r')) (stripPrefix "ull" r)
          else
            match scanNumber (String c r) with
            | Some (lit, r') => Some (VNumber lit, r')
            | None => None
            end
      end
  end
with scanMembers (fuel : nat) (s : string)
     : option (list (string * Value) * string) :=
  match fuel with
  | O => None
  | S fuel =>
      match skipSpace s with
      | String "034"%char r =>
          match scanString r with
          | Some (key, r1) =>
              match skipSpace r1 with
              | String ":"%char r2 =>
                  match scanValue fuel r2 with
                  | Some (x, r3) =>
                      match skipSpace r3 with
                      | String ","%char r4 =>
                          match scanMembers fuel r4 with
                          | Some (ms, r5) => Some ((key, x) :: ms, r5)
                          | None => None
                          end
                      | String "}"%char r4 => Some ([(key, x)], r4)
                      | _ => None
                      end
                  | None => None
                  end
              | _ => None
              end
          | None => None
          end
      | _ => None
      end
  end
with scanElements (fuel : nat) (s : string) : option (list Value * string) :=
  match fuel with
  | O => None
  | S fuel =>
      match scanValue fuel s with
      | Some (x, r1) =>
          match skipSpace r1 with
          | String ","%char r2 =>
              match scanElements fuel r2 with
              | Some (xs, r3) => Some (x :: xs, r3)
              | None => None
              end
          | String "]"%char r2 => Some ([x], r2)
          | _ => None
          end
      | None => None
      end
  end.

(** The first value of a text.  A call of one of the three functions above
    consumes a byte of the input before it calls the next, and [scan] gives
    them twice the length of the text and two for fuel. *)
Definition scan (text : string) : Value + error :=
  match skipSpace text with
  | EmptyString => inr (errorString "EOF")
  | _ =>
      match scanValue (2 * String.length text + 2) text with
      | Some (x, _) => inl x
      | None => inr (SyntaxError "invalid character or unexpected end of JSON input")
      end
  end.

(** A text written with ['] where JSON has the double quote. *)
Fixpoint dq (s : string) : string :=
  match s with
  | EmptyString => EmptyString
  | String c r => String (if Ascii.eqb c "'" then quote else c) (dq r)
  end.

End scanner.

(** ** The parts of the Go runtime a provider is linked with

    [http.NewRequest], the process-wide [http.DefaultClient], the value
    scanner of [encoding/json] and the RFC 3339 parser of [time] are taken
    as given. *)
Record Runtime : Type := {
  NewRequest : string -> string -> http.Request + error;
  DefaultClient : http.Client;
  scanJSON : string -> json.Value + error;
  parseTime : string -> time.Time + error
}.

(** ** Package github.com/markbates/goth *)
Module goth.

(** Modelled from the spec: the normalized user record [goth.User] is
    declared by the host framework; these are the fields the spec lists
    for it, under their Go names. *)
Record User : Type := {
  UserID : string;
  NickName : string;
  FirstName : string;
  LastName : string;
  Email : string;
  Location : string;
  AvatarURL : string;
  AccessToken : string;
  RefreshToken : string;
  ExpiresAt : time.Time;
  Provider : string
}.

(** The zero value of [User]. *)
Definition zeroUser : User :=
  {| UserID := EmptyString; NickName := EmptyString; FirstName := EmptyString;
     LastName := EmptyString; Email := EmptyString; Location := EmptyString;
     AvatarURL := EmptyString; AccessToken := EmptyString;
     RefreshToken := EmptyString; ExpiresAt := time.zero;
     Provider := EmptyString |}.

(** [goth.HTTPClientWithFallBack]: the given client, or the default one
    when there is none. *)
Definition HTTPClientWithFallBack (rt : Runtime) (h : option http.Client)
  : http.Client :=
  match h with
  | Some c => c
  | None => DefaultClient rt
  end.

End goth.

(** ** Package autodeskforge *)
Module autodeskforge.

Definition baseAuthURL : string :=
  "https://developer.api.autodesk.com/authentication/v1/authorize".
Definition tokenURL : string :=
  "https://developer.api.autodesk.com/authentication/v1/gettoken".
Definition endpointUser : string :=
  "https://developer.api.autodesk.com/userprofile/v1/users/@me".

(** Modelled from the spec: the type [Session] is declared in session.go,
    which is not among the sources; its four fields are those of the
    session's external representation, and [FetchUser] reads three of
    them. *)
Record Session : Type := {
  AuthURL : string;
  AccessToken : string;
  RefreshToken : string;
  ExpiresAt : time.Time
}.

(** A value of the interface type [goth.Session], by its dynamic type. *)
Inductive gothSession : Type :=
| nilInterface
| forgeSession (sess : option Session)   (* a [*Session], possibly nil *)
| otherSession (dynamicType : string).   (* the session of another provider *)

Record Provider : Type := {
  ClientKey : string;
  Secret : string;
  CallbackURL : string;
  HTTPClient : option http.Client;
  config : option oauth2.Config;
  providerName : string
}.

Definition setConfig (p : Provider) (c : option oauth2.Config) : Provider :=
  {| ClientKey := ClientKey p; Secret := Secret p; CallbackURL := CallbackURL p;
     HTTPClient := HTTPClient p; config := c; providerName := providerName p |}.

Definition appendScope (c : oauth2.Config) (scope : string) : oauth2.Config :=
  {| oauth2.ClientID := oauth2.ClientID c;
     oauth2.ClientSecret := oauth2.ClientSecret c;
     oauth2.Endpoint_ := oauth2.Endpoint_ c;
     oauth2.RedirectURL := oauth2.RedirectURL c;
     oauth2.Scopes := (oauth2.Scopes c ++ [scope])%list |}.

(** [newConfig]: the OAuth2 configuration of a provider.  The loop over
    [scopes] appends them to the empty scope list one by one. *)
Definition newConfig (provider : Provider) (scopes : list string)
  : oauth2.Config :=
  let authURL :=
    baseAuthURL ++ "?response_type=code&client_id=" ++ ClientKey provider
    ++ "&redirect_uri=" ++ CallbackURL provider ++ "&scope=data:read" in
  let c :=
    {| oauth2.ClientID := ClientKey provider;
       oauth2.ClientSecret := Secret provider;
       oauth2.RedirectURL := CallbackURL provider;
       oauth2.Endpoint_ :=
         {| oauth2.AuthURL := authURL; oauth2.TokenURL := tokenURL |};
       oauth2.Scopes := [] |} in
  if (0 <? length scopes)%nat then fold_left appendScope scopes c else c.

(** [New] creates a new provider and sets up the connection details.  One
    always calls [New] to get a provider and never creates one by hand. *)
Definition New (clientKey secret callbackURL : string) (scopes : list string)
  : Provider :=
  let p :=
    {| ClientKey := clientKey; Secret := secret; CallbackURL := callbackURL;
       HTTPClient := None; config := None; providerName := "autodeskforge" |} in
  setConfig p (Some (newConfig p scopes)).

(** [Name] is the name used to retrieve the provider later. *)
Definition Name (p : Provider) : string := providerName p.

(** [SetName] updates the name of the provider. *)
Definition SetName (p : Provider) (name : string) : Provider :=
  {| ClientKey := ClientKey p; Secret := Secret p; CallbackURL := CallbackURL p;
     HTTPClient := HTTPClient p; config := config p; providerName := name |}.

(** The assignment [p.HTTPClient = c]. *)
Definition SetHTTPClient (p : Provider) (c : option http.Client) : Provider :=
  {| ClientKey := ClientKey p; Secret := Secret p; CallbackURL := CallbackURL p;
     HTTPClient := c; config := config p; providerName := providerName p |}.

(** [RefreshTokenAvailable]: whether the provider hands out refresh tokens. *)
Definition RefreshTokenAvailable (p : Provider) : bool := true.

(** The struct [u] that [FetchUser] decodes the profile into. *)
Record images : Type := { SizeX120 : string }.

Record profile : Type := {
  UserID : string;
  UserName : string;
  FirstName : string;
  LastName : string;
  CountryCode : string;
  EmailID : string;
  StatusMessage : string;
  ProfileImages : images
}.

Definition zeroProfile : profile :=
  {| UserID := EmptyString; UserName := EmptyString; FirstName := EmptyString;
     LastName := EmptyString; CountryCode := EmptyString; EmailID := EmptyString;
     StatusMessage := EmptyString;
     ProfileImages := {| SizeX120 := EmptyString |} |}.

(** The fields of [u] under the names of their tags; [ProfileImages] has
    no tag and goes by its Go name. *)
Definition imagesFields : list (json.field images) :=
  [ json.stringField "sizeX120" SizeX120 (fun s _ => {| SizeX120 := s |}) ].

Definition profileFields : list (json.field profile) :=
  [ json.stringField "userId" UserID
      (fun s u => Build_profile s (UserName u) (FirstName u) (LastName u)
                    (CountryCode u) (EmailID u) (StatusMessage u) (ProfileImages u));
    json.stringField "userName" UserName
      (fun s u => Build_profile (UserID u) s (FirstName u) (LastName u)
                    (CountryCode u) (EmailID u) (StatusMessage u) (ProfileImages u));
    json.stringField "firstName" FirstName
      (fun s u => Build_profile (UserID u) (UserName u) s (LastName u)
                    (CountryCode u) (EmailID u) (StatusMessage u) (ProfileImages u));
    json.stringField "lastName" LastName
      (fun s u => Build_profile (UserID u) (UserName u) (FirstName u) s
                    (CountryCode u) (EmailID u) (StatusMessage u) (ProfileImages u));
    json.stringField "countryCode" CountryCode
      (fun s u => Build_profile (UserID u) (UserName u) (FirstName u) (LastName u)
                    s (EmailID u) (StatusMessage u) (ProfileImages u));
    json.stringField "emailId" EmailID
      (fun s u => Build_profile (UserID u) (UserName u) (FirstName u) (LastName u)
                    (CountryCode u) s (StatusMessage u) (ProfileImages u));
    json.stringField "statusMessage" StatusMessage
      (fun s u => Build_profile (UserID u) (UserName u) (FirstName u) (LastName u)
                    (CountryCode u) (EmailID u) s (ProfileImages u));
    json.structField "ProfileImages" "struct { SizeX120 string }" imagesFields
      ProfileImages
      (fun i u => Build_profile (UserID u) (UserName u) (FirstName u) (LastName u)
                    (CountryCode u) (EmailID u) (StatusMessage u) i) ].

Definition profileType : string :=
  "struct { UserID string; UserName string; FirstName string; LastName string; CountryCode string; EmailID string; StatusMessage string; ProfileImages struct { SizeX120 string } }".

Section WithRuntime.
Variable rt : Runtime.

(** [Client] returns the HTTP client of the provider, with a fallback. *)
Definition Client (p : Provider) : http.Client :=
  goth.HTTPClientWithFallBack rt (HTTPClient p).

(** [BeginAuth] asks for an authentication end-point: the session it returns
    holds the URL of the OAuth2 configuration for [state]. *)
Definition BeginAuth (p : Provider) (state : string)
  : M http.World (gothSession * option error) :=
  c <- deref (config p) ;;
  ret (forgeSession
         (Some {| AuthURL := oauth2.AuthCodeURL c state;
                  AccessToken := EmptyString;
                  RefreshToken := EmptyString;
                  ExpiresAt := time.zero |}),
       None).

(** The type assertion of [session] to a pointer to [Session]. *)
Definition assertSession (session : gothSession)
  : M http.World (option Session) :=
  match session with
  | forgeSession sess => ret sess
  | nilInterface => raise (TypeAssertionError None "*autodeskforge.Session")
  | otherSession t =>
      raise (TypeAssertionError (Some t) "*autodeskforge.Session")
  end.

(** [FetchUser] gets the profile of the user from the user-profile
    endpoint.  The seven assignments to [user] at its end are written as
    one record. *)
Definition FetchUser (p : Provider) (session : gothSession)
  : M http.World (goth.User * option error) :=
  ptr <- assertSession session ;;
  sess <- deref ptr ;;
  let user :=
    {| goth.AccessToken := AccessToken sess;
       goth.Provider := Name p;
       goth.RefreshToken := RefreshToken sess;
       goth.ExpiresAt := ExpiresAt sess;
       goth.UserID := EmptyString; goth.NickName := EmptyString;
       goth.FirstName := EmptyString; goth.LastName := EmptyString;
       goth.Email := EmptyString; goth.Location := EmptyString;
       goth.AvatarURL := EmptyString |} in
  if goth.AccessToken user =? EmptyString then
    ret (user,
         Some (fmt.Errorf (providerName p
                           ++ " cannot get user information without accessToken")))
  else
    let c := Client p in
    match NewRequest rt "GET" endpointUser with
    | inr err => ret (user, Some err)
    | inl req =>
        let req :=
          http.HeaderAdd req "Authorization" ("Bearer " ++ AccessToken sess) in
        r <- http.Do c req ;;
        let '(response, err) := r in
        match err with
        | Some err =>
            match response with
            | Some response => http.Close (http.Body response)
            | None => ret tt
            end ;;;
            ret (user, Some err)
        | None =>
            response <- deref response ;;
            if negb (http.StatusCode response =? http.StatusOK)%Z then
              ret (user,
                   Some (fmt.Errorf
                           (providerName p ++ " responded with a "
                            ++ fmt.d (http.StatusCode response)
                            ++ " trying to fetch user information")))
            else
              r <- http.ReadAll (http.Body response) ;;
              let '(bits, err) := r in
              match err with
              | Some err => ret (user, Some err)
              | None =>
                  let '(u, err) :=
                    json.Decode (scanJSON rt) profileType profileFields bits
                                zeroProfile in
                  match err with
                  | Some err => ret (user, Some err)
                  | None =>
                      ret ({| goth.NickName := UserName u;
                              goth.AvatarURL := SizeX120 (ProfileImages u);
                              goth.FirstName := FirstName u;
                              goth.Email := EmailID u;
                              goth.Location := CountryCode u;
                              goth.LastName := LastName u;
                              goth.UserID := UserID u;
                              goth.AccessToken := goth.AccessToken user;
                              goth.Provider := goth.Provider user;
                              goth.RefreshToken := goth.RefreshToken user;
                              goth.ExpiresAt := goth.ExpiresAt user |},
                           None)
                  end
              end
        end
    end.

(** How [encoding/json] stores into a [time.Time], which unmarshals
    itself from a JSON string in RFC 3339 form. *)
Definition timeValue (x : json.Value) (old : time.Time)
  : time.Time * option error :=
  match x with
  | json.VNull => (old, None)
  | json.VString s =>
      match parseTime rt s with
      | inl t => (t, None)
      | inr e => (old, Some e)
      end
  | _ => (old, Some (errorString "Time.UnmarshalJSON: input is not a JSON string"))
  end.

Definition sessionFields : list (json.field Session) :=
  [ json.stringField "AuthURL" AuthURL
      (fun s v => Build_Session s (AccessToken v) (RefreshToken v) (ExpiresAt v));
    json.stringField "AccessToken" AccessToken
      (fun s v => Build_Session (AuthURL v) s (RefreshToken v) (ExpiresAt v));
    json.stringField "RefreshToken" RefreshToken
      (fun s v => Build_Session (AuthURL v) (AccessToken v) s (ExpiresAt v));
    {| json.name := "ExpiresAt";
       json.store := fun x v =>
         let r := timeValue x (ExpiresAt v) in
         (Build_Session (AuthURL v) (AccessToken v) (RefreshToken v) (fst r),
          snd r) |} ].

Definition zeroSession : Session :=
  {| AuthURL := EmptyString; AccessToken := EmptyString;
     RefreshToken := EmptyString; ExpiresAt := time.zero |}.

(** Modelled from the spec: [UnmarshalSession] is declared in session.go,
    which is not among the sources.  It deserializes a Session from its
    persisted text form, a JSON object with the keys [AuthURL],
    [AccessToken], [RefreshToken] and [ExpiresAt], and fails with a parse
    error on malformed input. *)
Definition UnmarshalSession (p : Provider) (data : string)
  : M http.World (gothSession * option error) :=
  let '(sess, err) :=
    json.Decode (scanJSON rt) "autodeskforge.Session" sessionFields data
                zeroSession in
  ret (forgeSession (Some sess), err).

End WithRuntime.

(** The providers a program has: made by [New], then renamed or given an
    HTTP client. *)
Inductive constructed : Provider -> Prop :=
| constructed_New clientKey secret callbackURL scopes :
    constructed (New clientKey secret callbackURL scopes)
| constructed_SetName p name :
    constructed p -> constructed (SetName p name)
| constructed_SetHTTPClient p c :
    constructed p -> constructed (SetHTTPClient p c).

(** The user record [FetchUser] starts from. *)
Definition sessionUser (p : Provider) (sess : Session) : goth.User :=
  {| goth.AccessToken := AccessToken sess;
     goth.Provider := Name p;
     goth.RefreshToken := RefreshToken sess;
     goth.ExpiresAt := ExpiresAt sess;
     goth.UserID := EmptyString; goth.NickName := EmptyString;
     goth.FirstName := EmptyString; goth.LastName := EmptyString;
     goth.Email := EmptyString; goth.Location := EmptyString;
     goth.AvatarURL := EmptyString |}.

(** What [FetchUser] makes of a decoded profile. *)
Definition profileUser (p : Provider) (sess : Session) (u : profile)
  : goth.User :=
  {| goth.UserID := UserID u;
     goth.NickName := UserName u;
     goth.FirstName := FirstName u;
     goth.LastName := LastName u;
     goth.Email := EmailID u;
     goth.Location := CountryCode u;
     goth.AvatarURL := SizeX120 (ProfileImages u);
     goth.AccessToken := AccessToken sess;
     goth.RefreshToken := RefreshToken sess;
     goth.ExpiresAt := ExpiresAt sess;
     goth.Provider := Name p |}.

(** The members of a profile as the user-profile endpoint documents it. *)
Definition profileMembers (userId userName firstName lastName countryCode
                             emailId statusMessage sizeX120 : string)
  : list (string * json.Value) :=
  [ ("userId", json.VString userId);
    ("userName", json.VString userName);
    ("firstName", json.VString firstName);
    ("lastName", json.VString lastName);
    ("countryCode", json.VString countryCode);
    ("emailId", json.VString emailId);
    ("statusMessage", json.VString statusMessage);
    ("profileImages", json.VObject [("sizeX120", json.VString sizeX120)]) ].

(** A member whose key names no field of [u]: decoding skips it. *)
Definition skipped (member : string * json.Value) : bool :=
  match json.findField profileFields (fst member) with
  | Some _ => false
  | None => true
  end.

(** [Debug] is a no-op. *)
Definition Debug (p : Provider) (debug : bool) : Provider := p.

Section WithTokenSource.
Variable rt : Runtime.

(** What [p.config.TokenSource(goth.ContextForClient(c), token).Token()]
    comes to, for a configuration pointer, a client and a token: oauth2's
    token source is taken as given. *)
Variable tokenSource :
  option oauth2.Config -> http.Client -> oauth2.Token ->
  M http.World (option oauth2.Token * option error).

(** [RefreshToken] gets a new access token based on the refresh token. *)
Definition RefreshToken_ (p : Provider) (refreshToken : string)
  : M http.World (option oauth2.Token * option error) :=
  let token :=
    {| oauth2.RefreshToken := refreshToken;
       oauth2.AccessToken := EmptyString; oauth2.TokenType := EmptyString;
       oauth2.Expiry := time.zero |} in
  r <- tokenSource (config p) (Client rt p) token ;;
  let '(newToken, err) := r in
  match err with
  | Some err => ret (None, Some err)
  | None => ret (newToken, None)
  end.

End WithTokenSource.

(** A user record under another provider name. *)
Definition withProvider (name : string) (user : goth.User) : goth.User :=
  {| goth.UserID := goth.UserID user; goth.NickName := goth.NickName user;
     goth.FirstName := goth.FirstName user; goth.LastName := goth.LastName user;
     goth.Email := goth.Email user; goth.Location := goth.Location user;
     goth.AvatarURL := goth.AvatarURL user;
     goth.AccessToken := goth.AccessToken user;
     goth.RefreshToken := goth.RefreshToken user;
     goth.ExpiresAt := goth.ExpiresAt user;
     goth.Provider := name |}.

(** The JSON names of the fields of [u]. *)
Definition fieldNames : list string := map json.name profileFields.

(** The members of an object with their keys rewritten. *)
Definition rekeyed (recase : string -> string)
           (members : list (string * json.Value)) : list (string * json.Value) :=
  map (fun member => (recase (fst member), snd member)) members.

(** The JSON names of the seven fields of [u] that are Go strings. *)
Definition stringFieldNames : list string :=
  [ "userId"; "userName"; "firstName"; "lastName"; "countryCode"; "emailId";
    "statusMessage" ].

(** A value a Go [string] does not take. *)
Definition notForString (x : json.Value) : bool :=
  match x with
  | json.VString _ | json.VNull => false
  | _ => true
  end.

End autodeskforge.

(** ** A runtime to run the model with *)
Module reference.

Definition isToken (c : ascii) : bool :=
  let n := nat_of_ascii c in
  ((33 <=? n)%nat && (n <? 127)%nat)%bool
  && negb (existsb (Ascii.eqb c)
             (list_ascii_of_string (scanner.dq "()<>@,;:\'/[]?={}"))).

Definition validMethod (method : string) : bool :=
  negb (method =? EmptyString) && forallb isToken (list_ascii_of_string method).

Definition isControl (c : ascii) : bool :=
  let n := nat_of_ascii c in ((n <? 32)%nat || (n =? 127)%nat)%bool.

(** [http.NewRequest(method, url, nil)]: the method has to be a token and
    the URL free of control characters; an empty method stands for GET. *)
Definition NewRequest (method url : string) : http.Request + error :=
  let method := if method =? EmptyString then "GET" else method in
  if negb (validMethod method) then
    inr (errorString ("net/http: invalid method " ++ method))
  else if existsb isControl (list_ascii_of_string url) then
    inr (foreignError "*url.Error"
           ("parse " ++ url ++ ": net/url: invalid control character in URL"))
  else inl {| http.Method := method; http.URL := url; http.Header_ := [] |}.

Definition number (s : string) : option Z :=
  if forallb scanner.isDigit (list_ascii_of_string s)
  then Some (fold_left (fun n c => 10 * n + Z.of_nat (nat_of_ascii c) - 48)%Z
               (list_ascii_of_string s) 0%Z)
  else None.

Definition isLeap (y : Z) : bool :=
  ((y mod 4 =? 0) && (negb (y mod 100 =? 0) || (y mod 400 =? 0)))%Z.

Definition daysIn (y m : Z) : Z :=
  if (m =? 2)%Z then (if isLeap y then 29 else 28)%Z
  else if ((m =? 4) || (m =? 6) || (m =? 9) || (m =? 11))%Z then 30%Z
  else 31%Z.

(** The days from January 1 of year 1 to a date of the proleptic Gregorian
    calendar. *)
Definition daysSinceZero (y m d : Z) : Z :=
  let y' := (if m <=? 2 then y - 1 else y)%Z in
  let era := (y' / 400)%Z in
  let yoe := (y' - era * 400)%Z in
  let doy := ((153 * ((m + 9) mod 12) + 2) / 5 + d - 1)%Z in
  (era * 146097 + (yoe * 365 + yoe / 4 - yoe / 100 + doy) - 306)%Z.

(** [time.Parse(time.RFC3339, s)] on the form [2006-01-02T15:04:05Z]. *)
Definition parseTime (s : string) : time.Time + error :=
  let bad := inr (foreignError "*time.ParseError"
                    ("parsing time " ++ s ++ " as RFC 3339")) in
  let at_ (i : nat) (c : ascii) :=
    match String.get i s with
    | Some c' => Ascii.eqb c c'
    | None => false
    end in
  if ((String.length s =? 20)%nat && at_ 4%nat "-"%char && at_ 7%nat "-"%char
      && at_ 10%nat "T"%char && at_ 13%nat ":"%char && at_ 16%nat ":"%char
      && at_ 19%nat "Z"%char)%bool
  then
    match number (substring 0 4 s), number (substring 5 2 s),
          number (substring 8 2 s), number (substring 11 2 s),
          number (substring 14 2 s), number (substring 17 2 s) with
    | Some y, Some mo, Some d, Some h, Some mi, Some se =>
        if ((1 <=? mo) && (mo <=? 12) && (1 <=? d) && (d <=? daysIn y mo)
            && (h <? 24) && (mi <? 60) && (se <? 60))%Z
        then inl {| time.sec := (((daysSinceZero y mo d * 24 + h) * 60 + mi) * 60 + se)%Z;
                    time.nsec := 0 |}
        else bad
    | _, _, _, _, _, _ => bad
    end
  else bad.

(** A client that sends nothing anywhere and answers every request the
    same way. *)
Definition stub (response : option http.Response) (err : option error)
  : http.Client :=
  {| http.answer := fun _ => (response, err) |}.

Definition runtime (defaultClient : http.Client) : Runtime :=
  Build_Runtime NewRequest defaultClient scanner.scan parseTime.

End reference.

Import autodeskforge.

(** ** Concrete inputs *)
Module example.

(** A client no request of which gets through. *)
Definition offline : http.Client :=
  reference.stub None (Some (errorString "dial tcp: network is unreachable")).

Definition rt : Runtime := reference.runtime offline.

(** The provider of the package's tests. *)
Definition provider : Provider := New "client-id" "client-secret" "/foo" [].

Definition providerWith (c : http.Client) : Provider :=
  SetHTTPClient provider (Some c).

(** The session [BeginAuth] hands out, before and after the code exchange. *)
Definition fresh : Session :=
  {| AuthURL := baseAuthURL; AccessToken := EmptyString;
     RefreshToken := EmptyString; ExpiresAt := time.zero |}.

Definition authorized : Session :=
  {| AuthURL := baseAuthURL; AccessToken := "1234567890";
     RefreshToken := "0987654321";
     ExpiresAt := {| time.sec := 63713531045; time.nsec := 0 |} |}.

Definition profileText : string :=
  scanner.dq
    "{'userId':'U1','userName':'jdoe','firstName':'John','lastName':'Doe','countryCode':'US','emailId':'jdoe@example.com','statusMessage':'hi','profileImages':{'sizeX120':'https://images.example.com/jdoe.png'}}".

(** The same profile with its members in another order and one more. *)
Definition shuffledText : string :=
  scanner.dq
    "{ 'profileImages': {'sizeX120':'https://images.example.com/jdoe.png'}, 'emailId':'jdoe@example.com', 'userId':'U1', 'emailVerified': true, 'lastName':'Doe', 'firstName':'John', 'userName':'jdoe', 'statusMessage':'hi', 'countryCode':'US' }".

(** The persisted session of the package's tests. *)
Definition sessionText : string :=
  scanner.dq
    "{'AuthURL':'https://developer.api.autodesk.com/authentication/v1/authorize','AccessToken':'1234567890'}".

Definition shuffledMembers : list (string * json.Value) :=
  [ ("profileImages",
     json.VObject [("sizeX120", json.VString "https://images.example.com/jdoe.png")]);
    ("emailId", json.VString "jdoe@example.com");
    ("userId", json.VString "U1");
    ("emailVerified", json.VBool true);
    ("lastName", json.VString "Doe");
    ("firstName", json.VString "John");
    ("userName", json.VString "jdoe");
    ("statusMessage", json.VString "hi");
    ("countryCode", json.VString "US") ].

Definition ok (body : string) : http.Response :=
  {| http.StatusCode := 200;
     http.Body := {| http.content := body; http.readErr := None |} |}.

Definition notFound : http.Response :=
  {| http.StatusCode := 404;
     http.Body := {| http.content := "Not Found"; http.readErr := None |} |}.

Definition answering (response : http.Response) : Provider :=
  providerWith (reference.stub (Some response) None).

Definition bareRequest : http.Request :=
  {| http.Method := "GET"; http.URL := endpointUser; http.Header_ := [] |}.

Definition userRequest : http.Request :=
  {| http.Method := "GET"; http.URL := endpointUser;
     http.Header_ := [("Authorization", ["Bearer 1234567890"])] |}.

(** The profile with its members under the names of the fields of [u], and
    the spelling of the endpoint for them. *)
Definition exactText : string :=
  scanner.dq
    "{'userId':'U1','userName':'jdoe','firstName':'John','lastName':'Doe','countryCode':'US','emailId':'jdoe@example.com','statusMessage':'hi','ProfileImages':{'sizeX120':'https://images.example.com/jdoe.png'}}".

Definition exactMembers : list (string * json.Value) :=
  [ ("userId", json.VString "U1");
    ("userName", json.VString "jdoe");
    ("firstName", json.VString "John");
    ("lastName", json.VString "Doe");
    ("countryCode", json.VString "US");
    ("emailId", json.VString "jdoe@example.com");
    ("statusMessage", json.VString "hi");
    ("ProfileImages",
     json.VObject [("sizeX120", json.VString "https://images.example.com/jdoe.png")]) ].

Definition endpointSpelling (name : string) : string :=
  if name =? "ProfileImages" then "profileImages" else name.

(** A profile whose user id is a number. *)
Definition numericIdText : string :=
  scanner.dq "{'userName':'jdoe','userId':42,'firstName':'John'}".

End example.

(** * Properties *)

(** ** Strings *)

Lemma HasPrefix_app (pre rest : string) :
  strings.HasPrefix (pre ++ rest) pre = true.
Proof.
  induction pre as [|a pre IH]; simpl.
  - reflexivity.
  - rewrite Ascii.eqb_refl. exact IH.
Qed.

Lemma Contains_HasPrefix (s substr : string) :
  strings.HasPrefix s substr = true -> strings.Contains s substr = true.
Proof.
  intros H. destruct s; simpl in *; rewrite H; reflexivity.
Qed.

Lemma Contains_app (before substr after : string) :
  strings.Contains (before ++ substr ++ after) substr = true.
Proof.
  induction before as [|a before IH]; simpl.
  - apply Contains_HasPrefix, HasPrefix_app.
  - rewrite IH. apply orb_true_r.
Qed.

Lemma append_assoc (a b c : string) : (a ++ b) ++ c = a ++ b ++ c.
Proof.
  induction a as [|x a IH]; simpl; [reflexivity | now rewrite IH].
Qed.

(** ** The configuration [New] derives *)

Lemma appendScope_fold (scopes : list string) (c : oauth2.Config) :
  fold_left appendScope scopes c =
  {| oauth2.ClientID := oauth2.ClientID c;
     oauth2.ClientSecret := oauth2.ClientSecret c;
     oauth2.Endpoint_ := oauth2.Endpoint_ c;
     oauth2.RedirectURL := oauth2.RedirectURL c;
     oauth2.Scopes := (oauth2.Scopes c ++ scopes)%list |}.
Proof.
  revert c. induction scopes as [|scope scopes IH]; intros c; simpl.
  - rewrite app_nil_r. destruct c; reflexivity.
  - rewrite IH. simpl. rewrite <- app_assoc. reflexivity.
Qed.

Lemma newConfig_eq (provider : Provider) (scopes : list string) :
  newConfig provider scopes =
  {| oauth2.ClientID := ClientKey provider;
     oauth2.ClientSecret := Secret provider;
     oauth2.RedirectURL := CallbackURL provider;
     oauth2.Endpoint_ :=
       {| oauth2.AuthURL :=
            baseAuthURL ++ "?response_type=code&client_id=" ++ ClientKey provider
            ++ "&redirect_uri=" ++ CallbackURL provider ++ "&scope=data:read";
          oauth2.TokenURL := tokenURL |};
     oauth2.Scopes := scopes |}.
Proof.
  unfold newConfig. destruct scopes as [|scope scopes].
  - reflexivity.
  - change (0 <? length (scope :: scopes))%nat with true. cbv iota.
    rewrite appendScope_fold. reflexivity.
Qed.

(** C3. Whatever client key, secret, callback URL and scopes [New] is given,
    the authorization URL of the OAuth2 configuration it derives is the base
    endpoint followed by
    [?response_type=code&client_id=<clientKey>&redirect_uri=<callbackURL>&scope=data:read],
    the same for every list of scopes, and the scope list of the
    configuration is the [scopes] argument, in order. *)
Theorem New_config_authURL_and_scopes
        (clientKey secret callbackURL : string) (scopes : list string) :
  exists c : oauth2.Config,
    config (New clientKey secret callbackURL scopes) = Some c
    /\ oauth2.AuthURL (oauth2.Endpoint_ c) =
       baseAuthURL ++ "?response_type=code&client_id=" ++ clientKey
       ++ "&redirect_uri=" ++ callbackURL ++ "&scope=data:read"
    /\ oauth2.Scopes c = scopes
    /\ forall scopes' : list string,
        option_map (fun c' => oauth2.AuthURL (oauth2.Endpoint_ c'))
                   (config (New clientKey secret callbackURL scopes'))
        = Some (oauth2.AuthURL (oauth2.Endpoint_ c)).
Proof.
  unfold New, setConfig; simpl config.
  eexists; split; [reflexivity|].
  rewrite newConfig_eq; simpl.
  repeat split.
  intros scopes'. rewrite newConfig_eq. reflexivity.
Qed.

(** C6. [New] has no error path: it yields a provider, with a configuration,
    whose [ClientKey], [Secret] and [CallbackURL] are the arguments and whose
    name is "autodeskforge". *)
Theorem New_fields
        (clientKey secret callbackURL : string) (scopes : list string) :
  let p := New clientKey secret callbackURL scopes in
  ClientKey p = clientKey
  /\ Secret p = secret
  /\ CallbackURL p = callbackURL
  /\ Name p = "autodeskforge"
  /\ config p <> None.
Proof.
  simpl. repeat split. discriminate.
Qed.

(** C8. [RefreshTokenAvailable] is true of every provider, whatever it was
    constructed from and whatever name it was given since. *)
Theorem RefreshTokenAvailable_true (p : Provider) :
  RefreshTokenAvailable p = true
  /\ forall name : string, RefreshTokenAvailable (SetName p name) = true.
Proof.
  split; [|intros name]; reflexivity.
Qed.

(** ** BeginAuth *)

Lemma constructed_config (p : Provider) :
  constructed p ->
  exists (c : oauth2.Config) (query : string),
    config p = Some c
    /\ oauth2.AuthURL (oauth2.Endpoint_ c) = baseAuthURL ++ query.
Proof.
  induction 1 as [clientKey secret callbackURL scopes | p name _ IH | p c _ IH].
  - unfold New, setConfig; simpl config. rewrite newConfig_eq; simpl.
    do 2 eexists. split; reflexivity.
  - exact IH.
  - exact IH.
Qed.

(** C5. For a provider made by [New] (and renamed or given a client since)
    and every state, [BeginAuth] returns a nil error and a session of which
    only [AuthURL] is set; that URL starts with, hence contains, the base
    authorization endpoint; the world is left as it was: nothing is sent. *)
Theorem BeginAuth_session (p : Provider) (state : string) (w : http.World) :
  constructed p ->
  exists url rest : string,
    BeginAuth p state w =
    (returns (forgeSession
                (Some {| AuthURL := url; AccessToken := EmptyString;
                         RefreshToken := EmptyString; ExpiresAt := time.zero |}),
              None), w)
    /\ url = baseAuthURL ++ rest
    /\ strings.Contains url baseAuthURL = true.
Proof.
  intros Hp. destruct (constructed_config p Hp) as (c & query & Hc & Hurl).
  exists (oauth2.AuthCodeURL c state).
  exists (query
          ++ (if strings.Contains (oauth2.AuthURL (oauth2.Endpoint_ c)) "?"
              then "&" else "?")
          ++ url.Encode (oauth2.authCodeValues c state)).
  assert (Heq : oauth2.AuthCodeURL c state =
                baseAuthURL ++ query
                ++ (if strings.Contains (oauth2.AuthURL (oauth2.Endpoint_ c)) "?"
                    then "&" else "?")
                ++ url.Encode (oauth2.authCodeValues c state)).
  { unfold oauth2.AuthCodeURL. rewrite Hurl at 1. apply append_assoc. }
  split; [|split].
  - unfold BeginAuth, bind, deref, ret. rewrite Hc. reflexivity.
  - exact Heq.
  - rewrite Heq. apply (Contains_app EmptyString).
Qed.

(** ** FetchUser *)

(** Unfolds a call of [FetchUser] down to the tests it makes. *)
Ltac run_FetchUser :=
  cbv beta iota zeta
      delta [FetchUser bind assertSession deref ret raise
             http.Do http.ReadAll http.Close goth.AccessToken].

(** C1. Whatever the provider and the runtime, [FetchUser] on a session with
    an empty access token returns at once an error that names the provider;
    the result is a function of the provider and the session alone, and the
    world is left as it was: no request is sent, no body read or closed. *)
Theorem FetchUser_empty_access_token
        (rt : Runtime) (p : Provider) (sess : Session) (w : http.World) :
  AccessToken sess = EmptyString ->
  FetchUser rt p (forgeSession (Some sess)) w =
  (returns (sessionUser p sess,
            Some (errorString
                    (providerName p
                     ++ " cannot get user information without accessToken"))),
   w)
  /\ http.requests (snd (FetchUser rt p (forgeSession (Some sess)) w))
     = http.requests w.
Proof.
  intros H.
  assert (Hrun : FetchUser rt p (forgeSession (Some sess)) w =
                 (returns (sessionUser p sess,
                           Some (errorString
                                   (providerName p
                                    ++ " cannot get user information without accessToken"))),
                  w)).
  { unfold sessionUser. run_FetchUser. rewrite H. reflexivity. }
  split; [exact Hrun | now rewrite Hrun].
Qed.

(** C9. The session argument is cast to the provider's own session type
    before anything else is looked at: on the session of another provider
    [FetchUser] panics, whatever the provider; it returns neither a user nor
    an error, and nothing has happened by then. *)
Theorem FetchUser_foreign_session_panics
        (rt : Runtime) (p : Provider) (dynamicType : string) (w : http.World) :
  FetchUser rt p (otherSession dynamicType) w =
  (panics (TypeAssertionError (Some dynamicType) "*autodeskforge.Session"), w)
  /\ forall (result : goth.User * option error) (w' : http.World),
      FetchUser rt p (otherSession dynamicType) w <> (returns result, w').
Proof.
  assert (Hrun : FetchUser rt p (otherSession dynamicType) w =
                 (panics (TypeAssertionError (Some dynamicType)
                                             "*autodeskforge.Session"), w)).
  { run_FetchUser. reflexivity. }
  split.
  - exact Hrun.
  - intros result w'. rewrite Hrun. discriminate.
Qed.

(** [%d] writes the decimal numeral of its argument: reading it gives the
    argument back. *)
Lemma fmt_d_reads_back (n : Z) :
  option_map Z.of_int (NilZero.int_of_string (fmt.d n)) = Some n.
Proof.
  unfold fmt.d. destruct n as [|k|k].
  - reflexivity.
  - rewrite NilZero.isi.
    + cbn [option_map]. f_equal. apply DecimalZ.of_to.
    + simpl. intros [= H]. now apply DecimalPos.Unsigned.to_uint_nonnil in H.
    + discriminate.
  - rewrite NilZero.isi.
    + cbn [option_map]. f_equal. apply DecimalZ.of_to.
    + discriminate.
    + simpl. intros [= H]. now apply DecimalPos.Unsigned.to_uint_nonnil in H.
Qed.

(** C4. With a non-empty access token, when the endpoint answers with a
    status other than 200, [FetchUser] returns an error whose message
    contains the status code in decimal. *)
Theorem FetchUser_status_not_OK
        (rt : Runtime) (p : Provider) (sess : Session) (w : http.World)
        (req : http.Request) (response : http.Response) :
  AccessToken sess <> EmptyString ->
  NewRequest rt "GET" endpointUser = inl req ->
  http.answer (Client rt p)
              (http.HeaderAdd req "Authorization" ("Bearer " ++ AccessToken sess))
  = (Some response, None) ->
  http.StatusCode response <> http.StatusOK ->
  exists err : error,
    FetchUser rt p (forgeSession (Some sess)) w =
    (returns (sessionUser p sess, Some err),
     (w ++ [http.Sent (http.HeaderAdd req "Authorization"
                                      ("Bearer " ++ AccessToken sess))])%list)
    /\ Error err =
       providerName p ++ " responded with a " ++ fmt.d (http.StatusCode response)
       ++ " trying to fetch user information"
    /\ strings.Contains (Error err) (fmt.d (http.StatusCode response)) = true
    /\ option_map Z.of_int (NilZero.int_of_string (fmt.d (http.StatusCode response)))
       = Some (http.StatusCode response).
Proof.
  intros Htoken Hreq Hanswer Hstatus.
  apply String.eqb_neq in Htoken. apply Z.eqb_neq in Hstatus.
  eexists. split; [|split; [|split]]; [| | |apply fmt_d_reads_back].
  - run_FetchUser. rewrite Htoken, Hreq, Hanswer. cbv beta iota.
    rewrite Hstatus. reflexivity.
  - reflexivity.
  - cbv beta iota delta [Error fmt.Errorf].
    rewrite <- (append_assoc (providerName p) " responded with a ").
    apply Contains_app.
Qed.

(** The run of [FetchUser] up to the decoding of a body that was read. *)
Lemma FetchUser_decodes
      (rt : Runtime) (p : Provider) (sess : Session) (w : http.World)
      (req : http.Request) (response : http.Response) :
  AccessToken sess <> EmptyString ->
  NewRequest rt "GET" endpointUser = inl req ->
  http.answer (Client rt p)
              (http.HeaderAdd req "Authorization" ("Bearer " ++ AccessToken sess))
  = (Some response, None) ->
  http.StatusCode response = http.StatusOK ->
  http.readErr (http.Body response) = None ->
  FetchUser rt p (forgeSession (Some sess)) w =
  (returns
     (match json.Decode (scanJSON rt) profileType profileFields
                        (http.content (http.Body response)) zeroProfile with
      | (u, None) => (profileUser p sess u, None)
      | (_, Some err) => (sessionUser p sess, Some err)
      end),
   (w ++ [http.Sent (http.HeaderAdd req "Authorization"
                                    ("Bearer " ++ AccessToken sess));
          http.BodyRead])%list).
Proof.
  intros Htoken Hreq Hanswer Hstatus Hread.
  apply String.eqb_neq in Htoken.
  run_FetchUser. rewrite Htoken, Hreq, Hanswer. cbv beta iota.
  rewrite Hstatus, Hread. cbv beta iota. rewrite Z.eqb_refl. cbv beta iota delta [negb].
  destruct (json.Decode (scanJSON rt) profileType profileFields
                        (http.content (http.Body response)) zeroProfile)
    as [u [err|]]; rewrite <- app_assoc; reflexivity.
Qed.

(** *** Decoding a profile *)

Lemma fold_left_Permutation {A B : Type} (f : A -> B -> A) (l l' : list B) :
  Permutation l l' ->
  (forall x y a, In x l -> In y l -> f (f a x) y = f (f a y) x) ->
  forall a, fold_left f l a = fold_left f l' a.
Proof.
  induction 1 as [|x l l' Hperm IH|x y l|l l' l'' H1 IH1 H2 IH2];
    intros Hcomm a.
  - reflexivity.
  - simpl. apply IH. intros x' y' b Hx Hy. apply Hcomm; now right.
  - simpl. rewrite (Hcomm y x a); [reflexivity | now left | now right; left].
  - rewrite IH1 by assumption. apply IH2.
    intros x y b Hx Hy.
    apply Hcomm; apply (Permutation_in _ (Permutation_sym H1)); assumption.
Qed.

Lemma storeMember_skipped (acc : profile * option error)
      (member : string * json.Value) :
  skipped member = true -> json.storeMember profileFields acc member = acc.
Proof.
  unfold skipped, json.storeMember.
  destruct (json.findField profileFields (fst member)); [discriminate | reflexivity].
Qed.

Lemma storeMember_skipped_all (others : list (string * json.Value))
      (acc : profile * option error) :
  forallb skipped others = true ->
  fold_left (json.storeMember profileFields) others acc = acc.
Proof.
  induction others as [|member others IH]; simpl; intros H.
  - reflexivity.
  - apply andb_true_iff in H. destruct H as [Hm Ho].
    rewrite storeMember_skipped by assumption. now apply IH.
Qed.

(** The members of a profile go to fields of their own, so the order in
    which they are stored does not matter. *)
Lemma storeMember_profile_comm
      (userId userName firstName lastName countryCode emailId statusMessage
         sizeX120 : string) (others : list (string * json.Value))
      (x y : string * json.Value) (acc : profile * option error) :
  forallb skipped others = true ->
  In x (profileMembers userId userName firstName lastName countryCode emailId
                       statusMessage sizeX120 ++ others)%list ->
  In y (profileMembers userId userName firstName lastName countryCode emailId
                       statusMessage sizeX120 ++ others)%list ->
  json.storeMember profileFields (json.storeMember profileFields acc x) y =
  json.storeMember profileFields (json.storeMember profileFields acc y) x.
Proof.
  intros Hothers Hx Hy.
  rewrite forallb_forall in Hothers.
  apply in_app_or in Hx. apply in_app_or in Hy.
  destruct Hx as [Hx|Hx]; [|now rewrite !(storeMember_skipped _ x) by auto].
  destruct Hy as [Hy|Hy]; [|now rewrite !(storeMember_skipped _ y) by auto].
  destruct acc as [u e].
  simpl in Hx, Hy.
  repeat (destruct Hx as [<-|Hx]; [|]); try contradiction;
    repeat (destruct Hy as [<-|Hy]; [|]); try contradiction; reflexivity.
Qed.

(** Decoding a profile as the endpoint documents it, its members in any
    order and among any members that name no field, fills every field of
    [u]. *)
Lemma Decode_profile
      (scan : string -> json.Value + error) (text : string)
      (members others : list (string * json.Value))
      (userId userName firstName lastName countryCode emailId statusMessage
         sizeX120 : string) :
  scan text = inl (json.VObject members) ->
  Permutation members
              (profileMembers userId userName firstName lastName countryCode
                              emailId statusMessage sizeX120 ++ others)%list ->
  forallb skipped others = true ->
  json.Decode scan profileType profileFields text zeroProfile =
  ({| UserID := userId; UserName := userName; FirstName := firstName;
      LastName := lastName; CountryCode := countryCode; EmailID := emailId;
      StatusMessage := statusMessage;
      ProfileImages := {| SizeX120 := sizeX120 |} |}, None).
Proof.
  intros Hscan Hperm Hothers.
  unfold json.Decode. rewrite Hscan. unfold json.structValue, json.object.
  rewrite <- (fold_left_Permutation _ _ _ (Permutation_sym Hperm)).
  - rewrite fold_left_app.
    rewrite storeMember_skipped_all by assumption. reflexivity.
  - intros x y a Hx Hy.
    now apply (storeMember_profile_comm userId userName firstName lastName
                 countryCode emailId statusMessage sizeX120 others).
Qed.

(** C2. With a non-empty access token, when the endpoint answers 200 with a
    body that decodes, [FetchUser] returns, without error, the user whose
    [UserID], [NickName], [FirstName], [LastName], [Email], [Location] and
    [AvatarURL] are the fields [UserID], [UserName], [FirstName], [LastName],
    [EmailID], [CountryCode] and [ProfileImages.SizeX120] of the decoded
    profile, with the access token, the refresh token and the expiry of the
    session.  So, when the body reads as a profile (an object with the
    members [userId], [userName], [firstName], [lastName], [countryCode],
    [emailId], [statusMessage] and [profileImages.sizeX120], in any order,
    among any members that name no field), [UserID] is its [userId],
    [NickName] its [userName], [FirstName] and [LastName] its [firstName] and
    [lastName], [Email] its [emailId], [Location] its [countryCode] and
    [AvatarURL] its [profileImages.sizeX120]. *)
Theorem FetchUser_maps_profile
        (rt : Runtime) (p : Provider) (sess : Session) (w : http.World)
        (req : http.Request) (response : http.Response) :
  AccessToken sess <> EmptyString ->
  NewRequest rt "GET" endpointUser = inl req ->
  http.answer (Client rt p)
              (http.HeaderAdd req "Authorization" ("Bearer " ++ AccessToken sess))
  = (Some response, None) ->
  http.StatusCode response = 200%Z ->
  http.readErr (http.Body response) = None ->
  (forall u : profile,
      json.Decode (scanJSON rt) profileType profileFields
                  (http.content (http.Body response)) zeroProfile = (u, None) ->
      FetchUser rt p (forgeSession (Some sess)) w =
      (returns
         ({| goth.UserID := UserID u;
             goth.NickName := UserName u;
             goth.FirstName := FirstName u;
             goth.LastName := LastName u;
             goth.Email := EmailID u;
             goth.Location := CountryCode u;
             goth.AvatarURL := SizeX120 (ProfileImages u);
             goth.AccessToken := AccessToken sess;
             goth.RefreshToken := RefreshToken sess;
             goth.ExpiresAt := ExpiresAt sess;
             goth.Provider := Name p |},
          None),
       (w ++ [http.Sent (http.HeaderAdd req "Authorization"
                                        ("Bearer " ++ AccessToken sess));
              http.BodyRead])%list))
  /\ (forall (members others : list (string * json.Value))
             (userId userName firstName lastName countryCode emailId
                statusMessage sizeX120 : string),
         scanJSON rt (http.content (http.Body response))
         = inl (json.VObject members) ->
         Permutation members
                     (profileMembers userId userName firstName lastName
                                     countryCode emailId statusMessage sizeX120
                      ++ others)%list ->
         forallb skipped others = true ->
         FetchUser rt p (forgeSession (Some sess)) w =
         (returns
            ({| goth.UserID := userId;
                goth.NickName := userName;
                goth.FirstName := firstName;
                goth.LastName := lastName;
                goth.Email := emailId;
                goth.Location := countryCode;
                goth.AvatarURL := sizeX120;
                goth.AccessToken := AccessToken sess;
                goth.RefreshToken := RefreshToken sess;
                goth.ExpiresAt := ExpiresAt sess;
                goth.Provider := Name p |},
             None),
          (w ++ [http.Sent (http.HeaderAdd req "Authorization"
                                           ("Bearer " ++ AccessToken sess));
                 http.BodyRead])%list)).
Proof.
  intros Htoken Hreq Hanswer Hstatus Hread.
  rewrite (FetchUser_decodes rt p sess w req response Htoken Hreq Hanswer Hstatus Hread).
  split.
  - intros u Hdecode. rewrite Hdecode. reflexivity.
  - intros members others userId userName firstName lastName countryCode emailId
           statusMessage sizeX120 Hscan Hperm Hothers.
    rewrite (Decode_profile _ _ _ _ _ _ _ _ _ _ _ _ Hscan Hperm Hothers).
    reflexivity.
Qed.

(** *** The ways [FetchUser] fails *)

Lemma FetchUser_request_error
      (rt : Runtime) (p : Provider) (sess : Session) (w : http.World) (err : error) :
  AccessToken sess <> EmptyString ->
  NewRequest rt "GET" endpointUser = inr err ->
  FetchUser rt p (forgeSession (Some sess)) w =
  (returns (sessionUser p sess, Some err), w).
Proof.
  intros Htoken Hreq. apply String.eqb_neq in Htoken.
  run_FetchUser. rewrite Htoken, Hreq. reflexivity.
Qed.

Lemma FetchUser_transport_error
      (rt : Runtime) (p : Provider) (sess : Session) (w : http.World)
      (req : http.Request) (response : option http.Response) (err : error) :
  AccessToken sess <> EmptyString ->
  NewRequest rt "GET" endpointUser = inl req ->
  http.answer (Client rt p)
              (http.HeaderAdd req "Authorization" ("Bearer " ++ AccessToken sess))
  = (response, Some err) ->
  FetchUser rt p (forgeSession (Some sess)) w =
  (returns (sessionUser p sess, Some err),
   (w ++ [http.Sent (http.HeaderAdd req "Authorization"
                                    ("Bearer " ++ AccessToken sess))]
      ++ match response with
         | Some _ => [http.BodyClosed]
         | None => []
         end)%list).
Proof.
  intros Htoken Hreq Hanswer. apply String.eqb_neq in Htoken.
  run_FetchUser. rewrite Htoken, Hreq, Hanswer. cbv beta iota.
  destruct response as [response|].
  - rewrite <- app_assoc. reflexivity.
  - rewrite app_nil_r. reflexivity.
Qed.

Lemma FetchUser_read_error
      (rt : Runtime) (p : Provider) (sess : Session) (w : http.World)
      (req : http.Request) (response : http.Response) (err : error) :
  AccessToken sess <> EmptyString ->
  NewRequest rt "GET" endpointUser = inl req ->
  http.answer (Client rt p)
              (http.HeaderAdd req "Authorization" ("Bearer " ++ AccessToken sess))
  = (Some response, None) ->
  http.StatusCode response = http.StatusOK ->
  http.readErr (http.Body response) = Some err ->
  FetchUser rt p (forgeSession (Some sess)) w =
  (returns (sessionUser p sess, Some err),
   (w ++ [http.Sent (http.HeaderAdd req "Authorization"
                                    ("Bearer " ++ AccessToken sess));
          http.BodyRead])%list).
Proof.
  intros Htoken Hreq Hanswer Hstatus Hread. apply String.eqb_neq in Htoken.
  run_FetchUser. rewrite Htoken, Hreq, Hanswer. cbv beta iota.
  rewrite Hstatus, Hread, Z.eqb_refl. cbv beta iota delta [negb].
  rewrite <- app_assoc. reflexivity.
Qed.

Lemma FetchUser_decode_error
      (rt : Runtime) (p : Provider) (sess : Session) (w : http.World)
      (req : http.Request) (response : http.Response) (u : profile) (err : error) :
  AccessToken sess <> EmptyString ->
  NewRequest rt "GET" endpointUser = inl req ->
  http.answer (Client rt p)
              (http.HeaderAdd req "Authorization" ("Bearer " ++ AccessToken sess))
  = (Some response, None) ->
  http.StatusCode response = http.StatusOK ->
  http.readErr (http.Body response) = None ->
  json.Decode (scanJSON rt) profileType profileFields
              (http.content (http.Body response)) zeroProfile = (u, Some err) ->
  FetchUser rt p (forgeSession (Some sess)) w =
  (returns (sessionUser p sess, Some err),
   (w ++ [http.Sent (http.HeaderAdd req "Authorization"
                                    ("Bearer " ++ AccessToken sess));
          http.BodyRead])%list).
Proof.
  intros Htoken Hreq Hanswer Hstatus Hread Hdecode.
  rewrite (FetchUser_decodes rt p sess w req response Htoken Hreq Hanswer Hstatus Hread).
  rewrite Hdecode. reflexivity.
Qed.

(** A scanner error, and a value of the wrong kind, are decode errors. *)
Lemma Decode_scan_error
      (scan : string -> json.Value + error) (text : string) (err : error) :
  scan text = inr err ->
  json.Decode scan profileType profileFields text zeroProfile
  = (zeroProfile, Some err).
Proof.
  intros H. unfold json.Decode. rewrite H. reflexivity.
Qed.

(** Whenever [FetchUser] returns an error, the user it returns with it is the
    one it started from. *)
Lemma FetchUser_error_inv
      (rt : Runtime) (p : Provider) (session : gothSession) (w w' : http.World)
      (user : goth.User) (err : error) :
  FetchUser rt p session w = (returns (user, Some err), w') ->
  exists sess : Session,
    session = forgeSession (Some sess) /\ user = sessionUser p sess.
Proof.
  destruct session as [|[sess|]|t]; try discriminate.
  intros H. exists sess. split; [reflexivity|]. revert H.
  run_FetchUser.
  destruct (AccessToken sess =? EmptyString).
  { intros [= <- _ _]. reflexivity. }
  destruct (NewRequest rt "GET" endpointUser) as [req|e].
  2:{ intros [= <- _ _]. reflexivity. }
  destruct (http.answer (Client rt p)
              (http.HeaderAdd req "Authorization" ("Bearer " ++ AccessToken sess)))
    as [[response|] [e|]]; cbv beta iota; try discriminate;
    try (intros [= <- _ _]; reflexivity).
  destruct (negb (http.StatusCode response =? http.StatusOK)%Z).
  { intros [= <- _ _]. reflexivity. }
  destruct (http.readErr (http.Body response)) as [e|].
  { intros [= <- _ _]. reflexivity. }
  destruct (json.Decode (scanJSON rt) profileType profileFields
                        (http.content (http.Body response)) zeroProfile)
    as [u [e|]].
  - intros [= <- _ _]. reflexivity.
  - discriminate.
Qed.

(** C10. Whenever [FetchUser] returns an error, whatever the cause, the user
    record returned with it carries the access token, the refresh token and
    the expiry of the session and the current name of the provider (and
    nothing else), so it is not the zero record while the provider has a
    name. *)
Theorem FetchUser_error_user
        (rt : Runtime) (p : Provider) (session : gothSession) (w w' : http.World)
        (user : goth.User) (err : error) :
  FetchUser rt p session w = (returns (user, Some err), w') ->
  exists sess : Session,
    session = forgeSession (Some sess)
    /\ goth.AccessToken user = AccessToken sess
    /\ goth.RefreshToken user = RefreshToken sess
    /\ goth.ExpiresAt user = ExpiresAt sess
    /\ goth.Provider user = Name p
    /\ user = sessionUser p sess
    /\ (Name p <> EmptyString -> user <> goth.zeroUser).
Proof.
  intros H. destruct (FetchUser_error_inv rt p session w w' user err H)
    as (sess & Hsession & Huser).
  exists sess. subst user. repeat split; try assumption.
  intros Hname Hzero. apply Hname.
  change (goth.Provider (sessionUser p sess) = EmptyString).
  rewrite Hzero. reflexivity.
Qed.

(** ** UnmarshalSession *)

(** C7. [UnmarshalSession] returns, without error, the session a persisted
    text spells out: on a text that reads as an object with the members
    [AuthURL] and [AccessToken], the session with exactly these two values,
    and so on the text
    [{"AuthURL":"https://developer.api.autodesk.com/authentication/v1/authorize","AccessToken":"1234567890"}];
    on a text the scanner rejects, it fails with the error of the scanner. *)
Theorem UnmarshalSession_text
        (rt : Runtime) (p : Provider) (w : http.World) :
  (forall text authURL accessToken : string,
      scanJSON rt text =
      inl (json.VObject [("AuthURL", json.VString authURL);
                         ("AccessToken", json.VString accessToken)]) ->
      UnmarshalSession rt p text w =
      (returns (forgeSession
                  (Some {| AuthURL := authURL; AccessToken := accessToken;
                           RefreshToken := EmptyString;
                           ExpiresAt := time.zero |}),
                None), w))
  /\ (forall (text : string) (err : error),
         scanJSON rt text = inr err ->
         exists session : gothSession,
           UnmarshalSession rt p text w = (returns (session, Some err), w))
  /\ scanner.scan example.sessionText =
     inl (json.VObject
            [("AuthURL",
              json.VString
                "https://developer.api.autodesk.com/authentication/v1/authorize");
             ("AccessToken", json.VString "1234567890")]).
Proof.
  split; [|split].
  - intros text authURL accessToken Hscan.
    unfold UnmarshalSession, json.Decode. rewrite Hscan. reflexivity.
  - intros text err Hscan. eexists.
    unfold UnmarshalSession, json.Decode. rewrite Hscan. reflexivity.
  - vm_compute. reflexivity.
Qed.

(** ** The theorems at concrete inputs *)

(** Proves that a list written out is a permutation of another one, by
    looking up the members of the second in the first, one after the other. *)
Ltac find_split a pre l k :=
  lazymatch l with
  | a :: ?post => k pre post
  | ?b :: ?post => find_split a (pre ++ [b])%list post k
  end.

Ltac permutation :=
  cbn [app];
  lazymatch goal with
  | |- Permutation [] [] => exact (perm_nil _)
  | |- Permutation ?l (?a :: ?r) =>
      let T := type of a in
      find_split a (@nil T) l
        ltac:(fun pre post =>
                refine (Permutation_sym
                          (Permutation_cons_app pre post a (Permutation_sym _))));
      permutation
  end.

Lemma FetchUser_empty_access_token_witness :
  AccessToken example.fresh = EmptyString
  /\ FetchUser example.rt example.provider (forgeSession (Some example.fresh)) [] =
     (returns
        ({| goth.UserID := EmptyString; goth.NickName := EmptyString;
            goth.FirstName := EmptyString; goth.LastName := EmptyString;
            goth.Email := EmptyString; goth.Location := EmptyString;
            goth.AvatarURL := EmptyString; goth.AccessToken := EmptyString;
            goth.RefreshToken := EmptyString; goth.ExpiresAt := time.zero;
            goth.Provider := "autodeskforge" |},
         Some (errorString
                 "autodeskforge cannot get user information without accessToken")),
      []).
Proof.
  split; [reflexivity|].
  exact (proj1 (FetchUser_empty_access_token
                  example.rt example.provider example.fresh [] eq_refl)).
Defined.

Lemma FetchUser_maps_profile_witness :
  scanner.scan example.shuffledText = inl (json.VObject example.shuffledMembers)
  /\ FetchUser example.rt (example.answering (example.ok example.shuffledText))
               (forgeSession (Some example.authorized)) [] =
     (returns
        ({| goth.UserID := "U1"; goth.NickName := "jdoe";
            goth.FirstName := "John"; goth.LastName := "Doe";
            goth.Email := "jdoe@example.com"; goth.Location := "US";
            goth.AvatarURL := "https://images.example.com/jdoe.png";
            goth.AccessToken := "1234567890";
            goth.RefreshToken := "0987654321";
            goth.ExpiresAt := {| time.sec := 63713531045; time.nsec := 0 |};
            goth.Provider := "autodeskforge" |},
         None),
      [http.Sent example.userRequest; http.BodyRead]).
Proof.
  split; [vm_compute; reflexivity|].
  refine (proj2 (FetchUser_maps_profile
                   example.rt (example.answering (example.ok example.shuffledText))
                   example.authorized [] example.bareRequest
                   (example.ok example.shuffledText) _ _ _ _ _)
                example.shuffledMembers [("emailVerified", json.VBool true)]
                "U1" "jdoe" "John" "Doe" "US" "jdoe@example.com" "hi"
                "https://images.example.com/jdoe.png" _ _ _).
  - discriminate.
  - reflexivity.
  - reflexivity.
  - reflexivity.
  - reflexivity.
  - vm_compute. reflexivity.
  - cbv [example.shuffledMembers profileMembers]. permutation.
  - reflexivity.
Defined.

Lemma FetchUser_status_not_OK_witness :
  exists err : error,
    FetchUser example.rt (example.answering example.notFound)
              (forgeSession (Some example.authorized)) [] =
    (returns (sessionUser (example.answering example.notFound) example.authorized,
              Some err),
     [http.Sent example.userRequest])
    /\ Error err =
       "autodeskforge responded with a 404 trying to fetch user information"
    /\ strings.Contains (Error err) "404" = true
    /\ option_map Z.of_int (NilZero.int_of_string "404") = Some 404%Z.
Proof.
  refine (FetchUser_status_not_OK
            example.rt (example.answering example.notFound) example.authorized []
            example.bareRequest example.notFound _ _ _ _).
  - discriminate.
  - reflexivity.
  - reflexivity.
  - discriminate.
Defined.

Lemma BeginAuth_session_witness :
  constructed example.provider
  /\ exists url rest : string,
      BeginAuth example.provider "test_state" [] =
      (returns (forgeSession
                  (Some {| AuthURL := url; AccessToken := EmptyString;
                           RefreshToken := EmptyString; ExpiresAt := time.zero |}),
                None), [])
      /\ url = baseAuthURL ++ rest
      /\ strings.Contains url baseAuthURL = true.
Proof.
  split.
  - constructor.
  - apply (BeginAuth_session example.provider "test_state" []). constructor.
Defined.

Lemma FetchUser_error_user_witness :
  exists sess : Session,
    forgeSession (Some example.authorized) = forgeSession (Some sess)
    /\ goth.AccessToken (sessionUser example.provider example.authorized)
       = AccessToken sess
    /\ goth.RefreshToken (sessionUser example.provider example.authorized)
       = RefreshToken sess
    /\ goth.ExpiresAt (sessionUser example.provider example.authorized)
       = ExpiresAt sess
    /\ goth.Provider (sessionUser example.provider example.authorized)
       = Name example.provider
    /\ sessionUser example.provider example.authorized
       = sessionUser example.provider sess
    /\ (Name example.provider <> EmptyString ->
        sessionUser example.provider example.authorized <> goth.zeroUser).
Proof.
  refine (FetchUser_error_user
            example.rt example.provider (forgeSession (Some example.authorized))
            [] [http.Sent example.userRequest]
            (sessionUser example.provider example.authorized)
            (errorString "dial tcp: network is unreachable") _).
  reflexivity.
Defined.

Lemma UnmarshalSession_text_witness :
  UnmarshalSession example.rt example.provider example.sessionText [] =
  (returns (forgeSession
              (Some {| AuthURL :=
                         "https://developer.api.autodesk.com/authentication/v1/authorize";
                       AccessToken := "1234567890";
                       RefreshToken := EmptyString;
                       ExpiresAt := time.zero |}),
            None), [])
  /\ exists session : gothSession,
      UnmarshalSession example.rt example.provider
                       (scanner.dq "{'AuthURL':'https://developer.api") [] =
      (returns (session,
                Some (SyntaxError "invalid character or unexpected end of JSON input")),
       []).
Proof.
  split.
  - refine (proj1 (UnmarshalSession_text example.rt example.provider [])
                  example.sessionText _ _ _).
    vm_compute. reflexivity.
  - refine (proj1 (proj2 (UnmarshalSession_text example.rt example.provider []))
                  _ _ _).
    vm_compute. reflexivity.
Defined.

(** ** Runs of the model *)

(** The URL the provider of the tests is sent to: oauth2 appends its own
    query to the one [newConfig] has put into the endpoint already. *)
Example BeginAuth_test_state :
  BeginAuth example.provider "test_state" [] =
  (returns
     (forgeSession
        (Some {| AuthURL :=
                   "https://developer.api.autodesk.com/authentication/v1/authorize?response_type=code&client_id=client-id&redirect_uri=/foo&scope=data:read&client_id=client-id&redirect_uri=%2Ffoo&response_type=code&state=test_state";
                 AccessToken := EmptyString; RefreshToken := EmptyString;
                 ExpiresAt := time.zero |}),
      None), []).
Proof. vm_compute. reflexivity. Qed.

(** A provider put together by hand has no configuration, and [BeginAuth]
    dereferences it. *)
Example BeginAuth_without_New (state : string) (w : http.World) :
  BeginAuth {| ClientKey := "client-id"; Secret := "client-secret";
               CallbackURL := "/foo"; HTTPClient := None; config := None;
               providerName := "autodeskforge" |} state w =
  (panics nilDereference, w).
Proof. reflexivity. Qed.

(** The request that goes out is a GET of the user-profile endpoint with the
    access token as bearer; when it does not get through, the error of the
    client comes back. *)
Example FetchUser_offline :
  FetchUser example.rt example.provider (forgeSession (Some example.authorized)) [] =
  (returns (sessionUser example.provider example.authorized,
            Some (errorString "dial tcp: network is unreachable")),
   [http.Sent {| http.Method := "GET";
                 http.URL := "https://developer.api.autodesk.com/userprofile/v1/users/@me";
                 http.Header_ := [("Authorization", ["Bearer 1234567890"])] |}]).
Proof. vm_compute. reflexivity. Qed.

(** A response that comes with an error is closed. *)
Example FetchUser_redirects :
  FetchUser example.rt
            (example.providerWith
               (reference.stub (Some example.notFound)
                               (Some (errorString "stopped after 10 redirects"))))
            (forgeSession (Some example.authorized)) [] =
  (returns (sessionUser example.provider example.authorized,
            Some (errorString "stopped after 10 redirects")),
   [http.Sent example.userRequest; http.BodyClosed]).
Proof. vm_compute. reflexivity. Qed.

(** A body that is not JSON, an empty body, and a member of the wrong kind
    are decode errors. *)
Example FetchUser_body_not_JSON :
  FetchUser example.rt (example.answering (example.ok "<html>"))
            (forgeSession (Some example.authorized)) [] =
  (returns (sessionUser example.provider example.authorized,
            Some (SyntaxError "invalid character or unexpected end of JSON input")),
   [http.Sent example.userRequest; http.BodyRead]).
Proof. vm_compute. reflexivity. Qed.

Example FetchUser_body_empty :
  FetchUser example.rt (example.answering (example.ok EmptyString))
            (forgeSession (Some example.authorized)) [] =
  (returns (sessionUser example.provider example.authorized,
            Some (errorString "EOF")),
   [http.Sent example.userRequest; http.BodyRead]).
Proof. vm_compute. reflexivity. Qed.

Example FetchUser_member_of_wrong_kind :
  FetchUser example.rt
            (example.answering
               (example.ok (scanner.dq "{'userId': 5, 'userName': 'jdoe'}")))
            (forgeSession (Some example.authorized)) [] =
  (returns (sessionUser example.provider example.authorized,
            Some (UnmarshalTypeError "number" "string")),
   [http.Sent example.userRequest; http.BodyRead]).
Proof. vm_compute. reflexivity. Qed.

(** The profile of the endpoint's documentation, members in order. *)
Example FetchUser_profileText :
  FetchUser example.rt (example.answering (example.ok example.profileText))
            (forgeSession (Some example.authorized)) [] =
  (returns
     (profileUser example.provider example.authorized
        {| UserID := "U1"; UserName := "jdoe"; FirstName := "John";
           LastName := "Doe"; CountryCode := "US"; EmailID := "jdoe@example.com";
           StatusMessage := "hi";
           ProfileImages :=
             {| SizeX120 := "https://images.example.com/jdoe.png" |} |},
      None),
   [http.Sent example.userRequest; http.BodyRead]).
Proof. vm_compute. reflexivity. Qed.

(** A nil session pointer and a nil interface make [FetchUser] panic as
    well. *)
Example FetchUser_nil_session (w : http.World) :
  FetchUser example.rt example.provider (forgeSession None) w
  = (panics nilDereference, w)
  /\ FetchUser example.rt example.provider nilInterface w
     = (panics (TypeAssertionError None "*autodeskforge.Session"), w).
Proof. split; reflexivity. Qed.

(** A persisted session with all four members. *)
Example UnmarshalSession_full :
  UnmarshalSession example.rt example.provider
    (scanner.dq
       "{'AuthURL':'https://developer.api.autodesk.com/authentication/v1/authorize','AccessToken':'1234567890','RefreshToken':'0987654321','ExpiresAt':'2020-01-02T03:04:05Z'}")
    [] =
  (returns (forgeSession (Some example.authorized), None), []).
Proof. vm_compute. reflexivity. Qed.

(** * Further properties of the package *)

(** Splits a call of [FetchUser] on a session of the provider's own into the
    nine ways it can go. *)
Ltac cases_FetchUser rt p sess :=
  run_FetchUser;
  destruct (AccessToken sess =? EmptyString) eqn:Htoken;
  [| destruct (NewRequest rt "GET" endpointUser) as [req|e] eqn:Hreq;
     [ destruct (http.answer (Client rt p)
                   (http.HeaderAdd req "Authorization"
                                   ("Bearer " ++ AccessToken sess)))
         as [[response|] [e|]] eqn:Hanswer; cbv beta iota;
       [ | destruct (negb (http.StatusCode response =? http.StatusOK)%Z)
             eqn:Hstatus;
           [| destruct (http.readErr (http.Body response)) as [e|] eqn:Hread;
              [| destruct (json.Decode (scanJSON rt) profileType profileFields
                             (http.content (http.Body response)) zeroProfile)
                   as [u [e|]] eqn:Hdecode ] ]
       | | ]
     | ] ].

(** ** What FetchUser does to the world *)


(** X2. Once the request is out, [FetchUser] closes the body of the response
    exactly when the client returned the response together with an error.  A
    response that came without error is never closed: its body is read when
    the status is 200 and left alone otherwise. *)
Theorem FetchUser_closes_body_iff
        (rt : Runtime) (p : Provider) (sess : Session) (w : http.World)
        (request : http.Request) :
  AccessToken sess <> EmptyString ->
  NewRequest rt "GET" endpointUser = inl request ->
  let sent :=
    http.HeaderAdd request "Authorization" ("Bearer " ++ AccessToken sess) in
  exists events : list http.event,
    snd (FetchUser rt p (forgeSession (Some sess)) w)
    = (w ++ http.Sent sent :: events)%list
    /\ (In http.BodyClosed events <->
        exists (response : http.Response) (err : error),
          http.answer (Client rt p) sent = (Some response, Some err))
    /\ (In http.BodyRead events <->
        exists response : http.Response,
          http.answer (Client rt p) sent = (Some response, None)
          /\ http.StatusCode response = http.StatusOK).
Proof.
  intros Htok Hnew sent. subst sent.
  apply String.eqb_neq in Htok.
  cases_FetchUser rt p sess; try congruence;
    injection Hnew as <-; simpl snd; rewrite <- ?app_assoc; simpl app;
    eexists; (split; [reflexivity|]); rewrite Hanswer; split; split;
    lazymatch goal with
    | |- In _ _ -> _ =>
        intros Hin; simpl in Hin; try contradiction;
        destruct Hin as [Hin|Hin]; try discriminate Hin; try contradiction;
        first [ do 2 eexists; reflexivity
              | eexists; split;
                [ reflexivity
                | apply negb_false_iff, Z.eqb_eq in Hstatus; exact Hstatus ] ]
    | |- (exists _ _, _) -> _ =>
        intros (response' & err' & H); try discriminate H; now left
    | |- (exists _, _ /\ _) -> _ =>
        intros (response' & H & Hok); try discriminate H;
        injection H as <-;
        first [ now left
              | rewrite Hok, Z.eqb_refl in Hstatus; discriminate Hstatus ]
    end.
Qed.

(** ** When FetchUser panics, and when it succeeds *)




(** X16. [FetchUser] panics on a session argument that holds nothing: on a
    nil interface the type assertion fails, and on a nil pointer to a
    session the first field read is a nil dereference.  Either way nothing
    is sent, whatever the provider and its client. *)
Theorem FetchUser_nil_session_panics
        (rt : Runtime) (p : Provider) (w : http.World) :
  FetchUser rt p nilInterface w
  = (panics (TypeAssertionError None "*autodeskforge.Session"), w)
  /\ FetchUser rt p (forgeSession None) w = (panics nilDereference, w)
  /\ forall (session : gothSession) (result : goth.User * option error)
            (w' : http.World),
      FetchUser rt p session w = (returns result, w') ->
      exists sess : Session, session = forgeSession (Some sess).
Proof.
  split; [reflexivity|]. split; [reflexivity|].
  intros [|[sess|]|t] result w' H; try discriminate H.
  now exists sess.
Qed.

(** X4. [FetchUser] returns a nil error in one case only: the access token
    is not empty, the request was made, the client answered with a response
    and no error, the status is 200, the body was read without error and it
    decodes without error. *)
Theorem FetchUser_succeeds_iff
        (rt : Runtime) (p : Provider) (sess : Session) (w : http.World) :
  (exists (user : goth.User) (w' : http.World),
      FetchUser rt p (forgeSession (Some sess)) w = (returns (user, None), w'))
  <->
  (AccessToken sess <> EmptyString
   /\ exists (req : http.Request) (response : http.Response) (u : profile),
       NewRequest rt "GET" endpointUser = inl req
       /\ http.answer (Client rt p)
                      (http.HeaderAdd req "Authorization"
                                      ("Bearer " ++ AccessToken sess))
          = (Some response, None)
       /\ http.StatusCode response = http.StatusOK
       /\ http.readErr (http.Body response) = None
       /\ json.Decode (scanJSON rt) profileType profileFields
                      (http.content (http.Body response)) zeroProfile
          = (u, None)).
Proof.
  split.
  - intros (user & w' & H). revert H.
    cases_FetchUser rt p sess; try discriminate.
    intros _. apply String.eqb_neq in Htoken.
    apply negb_false_iff, Z.eqb_eq in Hstatus.
    split; [exact Htoken|]. exists req, response, u.
    repeat split; first [reflexivity | assumption].
  - intros (Htoken & req & response & u & Hreq & Hanswer & Hstatus & Hread & Hdecode).
    rewrite (FetchUser_decodes rt p sess w req response
               Htoken Hreq Hanswer Hstatus Hread).
    rewrite Hdecode. eauto.
Qed.

(** X5. Whatever [FetchUser] returns, with an error or without, the user
    carries the access token, the refresh token and the expiry of the
    session, unchanged, and the name of the provider. *)
Theorem FetchUser_user_of_session
        (rt : Runtime) (p : Provider) (session : gothSession) (w w' : http.World)
        (user : goth.User) (err : option error) :
  FetchUser rt p session w = (returns (user, err), w') ->
  exists sess : Session,
    session = forgeSession (Some sess)
    /\ goth.AccessToken user = AccessToken sess
    /\ goth.RefreshToken user = RefreshToken sess
    /\ goth.ExpiresAt user = ExpiresAt sess
    /\ goth.Provider user = Name p.
Proof.
  destruct session as [|[sess|]|t]; try discriminate.
  intros H. exists sess. split; [reflexivity|]. revert H.
  cases_FetchUser rt p sess; try discriminate;
    intros [= <- _ _]; repeat split.
Qed.

(** ** Names, clients and credentials *)

(** X6. [SetName] changes the name and nothing else: [Name] gives the new
    name, [BeginAuth] is as before, and [FetchUser] does the same to the
    world and returns the same user under the new provider name, with an
    error exactly when it returned one before (or panics as before). *)
Theorem SetName_only_renames
        (rt : Runtime) (p : Provider) (name state : string)
        (session : gothSession) (w : http.World) :
  Name (SetName p name) = name
  /\ BeginAuth (SetName p name) state w = BeginAuth p state w
  /\ snd (FetchUser rt (SetName p name) session w)
     = snd (FetchUser rt p session w)
  /\ match fst (FetchUser rt p session w),
           fst (FetchUser rt (SetName p name) session w) with
     | returns (user, err), returns (user', err') =>
         user' = withProvider name user /\ (err = None <-> err' = None)
     | panics x, panics x' => x = x'
     | _, _ => False
     end.
Proof.
  split; [reflexivity|]. split; [reflexivity|].
  destruct session as [|[sess|]|t]; try (split; reflexivity).
  run_FetchUser.
  change (Client rt (SetName p name)) with (Client rt p).
  cases_FetchUser rt p sess; simpl; (split; [reflexivity|]);
    try reflexivity; (split; [reflexivity|]); split; congruence.
Qed.


(** X8. [FetchUser] uses the name and the HTTP client of the provider and
    nothing else of it: the client key, the secret, the callback URL and the
    OAuth2 configuration do not enter the request or the result, and neither
    does the authorization URL of the session. *)
Theorem FetchUser_ignores_credentials
        (rt : Runtime) (p p' : Provider) (sess : Session) (authURL : string)
        (w : http.World) :
  providerName p' = providerName p ->
  HTTPClient p' = HTTPClient p ->
  FetchUser rt p'
            (forgeSession
               (Some {| AuthURL := authURL; AccessToken := AccessToken sess;
                        RefreshToken := RefreshToken sess;
                        ExpiresAt := ExpiresAt sess |})) w
  = FetchUser rt p (forgeSession (Some sess)) w.
Proof.
  intros Hname Hclient.
  run_FetchUser. unfold Client, Name. simpl.
  rewrite Hname, Hclient. reflexivity.
Qed.

(** ** Profiles that are not as documented *)

(** X9. [FetchUser] does not ask the profile for anything: when the body of a
    200 answer is [null], or an object none of whose members names a field
    (the empty object among them), it returns no error and a user without
    user id, names, email, location or avatar. *)
Theorem FetchUser_empty_profile
        (rt : Runtime) (p : Provider) (sess : Session) (w : http.World)
        (req : http.Request) (response : http.Response) :
  AccessToken sess <> EmptyString ->
  NewRequest rt "GET" endpointUser = inl req ->
  http.answer (Client rt p)
              (http.HeaderAdd req "Authorization" ("Bearer " ++ AccessToken sess))
  = (Some response, None) ->
  http.StatusCode response = http.StatusOK ->
  http.readErr (http.Body response) = None ->
  (scanJSON rt (http.content (http.Body response)) = inl json.VNull
   \/ exists others : list (string * json.Value),
       scanJSON rt (http.content (http.Body response)) = inl (json.VObject others)
       /\ forallb skipped others = true) ->
  FetchUser rt p (forgeSession (Some sess)) w =
  (returns (sessionUser p sess, None),
   (w ++ [http.Sent (http.HeaderAdd req "Authorization"
                                    ("Bearer " ++ AccessToken sess));
          http.BodyRead])%list).
Proof.
  intros Htoken Hreq Hanswer Hstatus Hread Hbody.
  rewrite (FetchUser_decodes rt p sess w req response
             Htoken Hreq Hanswer Hstatus Hread).
  unfold json.Decode.
  destruct Hbody as [Hnull | (others & Hobject & Hskipped)].
  - rewrite Hnull. reflexivity.
  - rewrite Hobject. unfold json.structValue, json.object.
    rewrite storeMember_skipped_all by assumption. reflexivity.
Qed.

(** A key that is a field name up to the case of its letters finds the field
    of that name. *)
Lemma findField_equalFold (name key : string) :
  In name fieldNames ->
  json.equalFold name key = true ->
  json.findField profileFields key = json.findField profileFields name.
Proof.
  intros Hin Hfold. unfold json.equalFold in Hfold.
  apply String.eqb_eq in Hfold.
  unfold json.findField at 1.
  cbn [profileFields find json.name json.stringField json.structField].
  repeat match goal with
         | |- context [String.eqb ?n key] =>
             destruct (String.eqb_spec n key) as [<-|_];
             [ simpl in Hin;
               repeat (destruct Hin as [<-|Hin]; [try reflexivity; discriminate Hfold|]);
               contradiction
             | ]
         end.
  unfold json.equalFold. rewrite <- Hfold.
  simpl in Hin.
  repeat (destruct Hin as [<-|Hin]; [reflexivity|]). contradiction.
Qed.

(** X10. The keys of the profile are matched to the fields of [u] without
    regard to the case of their letters: rewriting the keys of an object,
    each a field name, to other spellings of the same names leaves what is
    decoded unchanged.  This is how the member [profileImages] of the
    endpoint reaches the field [ProfileImages], which has no tag. *)
Theorem Decode_profile_any_case
        (scan : string -> json.Value + error) (text text' : string)
        (recase : string -> string) (members : list (string * json.Value)) :
  (forall name : string,
      In name fieldNames -> json.equalFold name (recase name) = true) ->
  Forall (fun member => In (fst member) fieldNames) members ->
  scan text = inl (json.VObject members) ->
  scan text' = inl (json.VObject (rekeyed recase members)) ->
  json.Decode scan profileType profileFields text' zeroProfile
  = json.Decode scan profileType profileFields text zeroProfile.
Proof.
  intros Hrecase Hmembers Hscan Hscan'.
  unfold json.Decode. rewrite Hscan, Hscan'. clear Hscan Hscan'.
  unfold json.structValue, json.object.
  generalize (zeroProfile, @None error).
  induction Hmembers as [|member members Hmember _ IH]; intros acc.
  - reflexivity.
  - simpl. rewrite IH. f_equal.
    unfold json.storeMember. cbn [fst snd].
    rewrite (findField_equalFold (fst member) (recase (fst member)));
      auto.
Qed.

(** Once an error is saved, it stays. *)
Lemma storeMember_keeps_error
      (members : list (string * json.Value)) (u : profile) (err : error) :
  exists u' : profile,
    fold_left (json.storeMember profileFields) members (u, Some err)
    = (u', Some err).
Proof.
  revert u. induction members as [|member members IH]; intros u.
  - exists u. reflexivity.
  - simpl. unfold json.storeMember at 2.
    destruct (json.findField profileFields (fst member)) as [f|].
    + cbn [fst snd json.saveError]. apply IH.
    + apply IH.
Qed.

(** A string field does not take a number, a boolean, an array or an
    object. *)
Lemma storeMember_notForString
      (acc : profile * option error) (key : string) (x : json.Value) :
  In key stringFieldNames ->
  notForString x = true ->
  exists (u : profile) (err : error),
    json.storeMember profileFields acc (key, x) = (u, Some err).
Proof.
  intros Hkey Hx. destruct acc as [u [e|]]; simpl in Hkey;
    repeat (destruct Hkey as [<-|Hkey];
            [destruct x; try discriminate Hx; do 2 eexists; reflexivity|]);
    contradiction.
Qed.

(** X11. One member of the wrong kind spoils the whole profile: when the
    body of a 200 answer is an object in which a member for one of the seven
    string fields holds a number, a boolean, an array or an object,
    [FetchUser] returns an error and the user without any field of the
    profile, whatever the other members are. *)
Theorem FetchUser_member_of_wrong_kind_fails
        (rt : Runtime) (p : Provider) (sess : Session) (w : http.World)
        (req : http.Request) (response : http.Response)
        (before after : list (string * json.Value))
        (key : string) (x : json.Value) :
  AccessToken sess <> EmptyString ->
  NewRequest rt "GET" endpointUser = inl req ->
  http.answer (Client rt p)
              (http.HeaderAdd req "Authorization" ("Bearer " ++ AccessToken sess))
  = (Some response, None) ->
  http.StatusCode response = http.StatusOK ->
  http.readErr (http.Body response) = None ->
  scanJSON rt (http.content (http.Body response))
  = inl (json.VObject (before ++ (key, x) :: after)) ->
  In key stringFieldNames ->
  notForString x = true ->
  exists err : error,
    FetchUser rt p (forgeSession (Some sess)) w =
    (returns (sessionUser p sess, Some err),
     (w ++ [http.Sent (http.HeaderAdd req "Authorization"
                                      ("Bearer " ++ AccessToken sess));
            http.BodyRead])%list).
Proof.
  intros Htoken Hreq Hanswer Hstatus Hread Hscan Hkey Hx.
  assert (Hdecode : exists (u : profile) (err : error),
             json.Decode (scanJSON rt) profileType profileFields
                         (http.content (http.Body response)) zeroProfile
             = (u, Some err)).
  { unfold json.Decode. rewrite Hscan. unfold json.structValue, json.object.
    rewrite fold_left_app. cbn [fold_left].
    destruct (storeMember_notForString
                (fold_left (json.storeMember profileFields) before
                           (zeroProfile, None)) key x Hkey Hx)
      as (u & err & Hstore).
    rewrite Hstore.
    destruct (storeMember_keeps_error after u err) as (u' & Hafter).
    exists u', err. exact Hafter. }
  destruct Hdecode as (u & err & Hdecode). exists err.
  exact (FetchUser_decode_error rt p sess w req response u err
           Htoken Hreq Hanswer Hstatus Hread Hdecode).
Qed.

(** ** The configuration and the authorization URL *)

(** X12. The OAuth2 configuration of a provider is fixed by [New] and kept
    by [SetName] and by a change of HTTP client: its client id is the client
    key, its client secret the secret, its redirect URL the callback URL, its
    token endpoint the fixed token URL, and its authorization endpoint the
    base endpoint with the query [newConfig] writes, client key and callback
    URL as they are. *)
Theorem constructed_config_fields (p : Provider) :
  constructed p ->
  exists c : oauth2.Config,
    config p = Some c
    /\ oauth2.ClientID c = ClientKey p
    /\ oauth2.ClientSecret c = Secret p
    /\ oauth2.RedirectURL c = CallbackURL p
    /\ oauth2.TokenURL (oauth2.Endpoint_ c) = tokenURL
    /\ oauth2.AuthURL (oauth2.Endpoint_ c) =
       baseAuthURL ++ "?response_type=code&client_id=" ++ ClientKey p
       ++ "&redirect_uri=" ++ CallbackURL p ++ "&scope=data:read".
Proof.
  induction 1 as [clientKey secret callbackURL scopes | p name _ IH | p c _ IH].
  - unfold New, setConfig; simpl config. rewrite newConfig_eq.
    eexists. repeat split.
  - exact IH.
  - exact IH.
Qed.

Lemma append_empty_r (s : string) : s ++ EmptyString = s.
Proof.
  induction s as [|c s IH]; simpl; [reflexivity | now rewrite IH].
Qed.

Lemma newConfig_AuthURL_has_query (provider : Provider) (scopes : list string) :
  strings.Contains (oauth2.AuthURL (oauth2.Endpoint_ (newConfig provider scopes)))
                   "?" = true.
Proof.
  rewrite newConfig_eq. cbn [oauth2.AuthURL oauth2.Endpoint_].
  apply (Contains_app baseAuthURL "?"
           ("response_type=code&client_id=" ++ ClientKey provider
            ++ "&redirect_uri=" ++ CallbackURL provider ++ "&scope=data:read")).
Qed.

(** X13. The URL [BeginAuth] hands out for a provider made by [New]: the
    endpoint of [newConfig], client key and callback URL unescaped and the
    scope [data:read], then, joined by [&] since that endpoint has a query
    already, the query of oauth2 in the order of its keys: the client id
    again, the redirect URL again unless it is empty, the response type
    again, the scopes given to [New] joined by spaces unless there are none,
    and the state unless it is empty, each of them escaped. *)
Theorem BeginAuth_URL
        (clientKey secret callbackURL : string) (scopes : list string)
        (state : string) (w : http.World) :
  BeginAuth (New clientKey secret callbackURL scopes) state w =
  (returns
     (forgeSession
        (Some {| AuthURL :=
                   (baseAuthURL ++ "?response_type=code&client_id=" ++ clientKey
                    ++ "&redirect_uri=" ++ callbackURL ++ "&scope=data:read")
                   ++ "&client_id=" ++ url.QueryEscape clientKey
                   ++ (if callbackURL =? EmptyString then EmptyString
                       else "&redirect_uri=" ++ url.QueryEscape callbackURL)
                   ++ "&response_type=code"
                   ++ (match scopes with
                       | [] => EmptyString
                       | _ :: _ =>
                           "&scope=" ++ url.QueryEscape (strings.Join scopes " ")
                       end)
                   ++ (if state =? EmptyString then EmptyString
                       else "&state=" ++ url.QueryEscape state);
                 AccessToken := EmptyString; RefreshToken := EmptyString;
                 ExpiresAt := time.zero |}),
      None), w).
Proof.
  unfold BeginAuth, bind, deref, ret, New, setConfig. cbn [config].
  unfold oauth2.AuthCodeURL. rewrite newConfig_AuthURL_has_query.
  rewrite newConfig_eq.
  unfold oauth2.authCodeValues.
  cbn [oauth2.AuthURL oauth2.Endpoint_ oauth2.ClientID oauth2.RedirectURL
       oauth2.Scopes ClientKey CallbackURL].
  destruct (callbackURL =? EmptyString); destruct scopes as [|scope scopes];
    destruct (state =? EmptyString);
    cbn -[strings.Join url.QueryEscape baseAuthURL];
    rewrite ?append_empty_r; reflexivity.
Qed.

(** ** RefreshToken *)

(** X14. [RefreshToken] asks the token source of the provider's
    configuration, with the provider's HTTP client (or the default one), for
    a token in place of one that holds the refresh token and nothing else.
    It does to the world what the source does, passes on the token when the
    source reports no error, and the error alone when it reports one: it
    never returns a token together with an error. *)
Theorem RefreshToken_token_or_error
        (rt : Runtime)
        (tokenSource : option oauth2.Config -> http.Client -> oauth2.Token ->
                       M http.World (option oauth2.Token * option error))
        (p : Provider) (refreshToken : string) (w : http.World) :
  let asked :=
    tokenSource (config p) (Client rt p)
                {| oauth2.RefreshToken := refreshToken;
                   oauth2.AccessToken := EmptyString;
                   oauth2.TokenType := EmptyString;
                   oauth2.Expiry := time.zero |} w in
  snd (RefreshToken_ rt tokenSource p refreshToken w) = snd asked
  /\ match fst asked, fst (RefreshToken_ rt tokenSource p refreshToken w) with
     | returns (token, None), returns result => result = (token, None)
     | returns (_, Some err), returns result => result = (None, Some err)
     | panics x, panics x' => x = x'
     | _, _ => False
     end
  /\ forall (token : oauth2.Token) (err : error) (w' : http.World),
      RefreshToken_ rt tokenSource p refreshToken w
      <> (returns (Some token, Some err), w').
Proof.
  unfold RefreshToken_, bind, ret. cbv zeta.
  destruct (tokenSource (config p) (Client rt p)
              {| oauth2.RefreshToken := refreshToken;
                 oauth2.AccessToken := EmptyString;
                 oauth2.TokenType := EmptyString;
                 oauth2.Expiry := time.zero |} w)
    as [[[token [err|]]|x] w1]; simpl; repeat split; intros; discriminate.
Qed.

(** ** Errors are passed on *)

(** X15. With a non-empty access token, the error of [http.NewRequest], the
    error of the client, the error of reading the body of a 200 answer and
    the error of decoding it each end the call and come back as they are,
    beside the user made from the session. *)
Theorem FetchUser_passes_errors_on
        (rt : Runtime) (p : Provider) (sess : Session) (w : http.World) :
  AccessToken sess <> EmptyString ->
  (forall err : error,
      NewRequest rt "GET" endpointUser = inr err ->
      fst (FetchUser rt p (forgeSession (Some sess)) w)
      = returns (sessionUser p sess, Some err))
  /\ (forall (req : http.Request) (response : option http.Response) (err : error),
         NewRequest rt "GET" endpointUser = inl req ->
         http.answer (Client rt p)
                     (http.HeaderAdd req "Authorization"
                                     ("Bearer " ++ AccessToken sess))
         = (response, Some err) ->
         fst (FetchUser rt p (forgeSession (Some sess)) w)
         = returns (sessionUser p sess, Some err))
  /\ (forall (req : http.Request) (response : http.Response) (err : error),
         NewRequest rt "GET" endpointUser = inl req ->
         http.answer (Client rt p)
                     (http.HeaderAdd req "Authorization"
                                     ("Bearer " ++ AccessToken sess))
         = (Some response, None) ->
         http.StatusCode response = http.StatusOK ->
         (http.readErr (http.Body response) = Some err
          \/ (http.readErr (http.Body response) = None
              /\ exists u : profile,
                  json.Decode (scanJSON rt) profileType profileFields
                              (http.content (http.Body response)) zeroProfile
                  = (u, Some err))) ->
         fst (FetchUser rt p (forgeSession (Some sess)) w)
         = returns (sessionUser p sess, Some err)).
Proof.
  intros Htoken. split; [|split].
  - intros err Hreq.
    now rewrite (FetchUser_request_error rt p sess w err Htoken Hreq).
  - intros req response err Hreq Hanswer.
    now rewrite (FetchUser_transport_error rt p sess w req response err
                   Htoken Hreq Hanswer).
  - intros req response err Hreq Hanswer Hstatus [Hread | (Hread & u & Hdecode)].
    + now rewrite (FetchUser_read_error rt p sess w req response err
                     Htoken Hreq Hanswer Hstatus Hread).
    + now rewrite (FetchUser_decode_error rt p sess w req response u err
                     Htoken Hreq Hanswer Hstatus Hread Hdecode).
Qed.

(** ** The further properties at concrete inputs *)

Lemma FetchUser_closes_body_iff_witness :
  exists events : list http.event,
    snd (FetchUser example.rt (example.answering example.notFound)
                   (forgeSession (Some example.authorized)) [])
    = ([] ++ http.Sent example.userRequest :: events)%list
    /\ (In http.BodyClosed events <->
        exists (response : http.Response) (err : error),
          http.answer (Client example.rt (example.answering example.notFound))
                      example.userRequest
          = (Some response, Some err))
    /\ (In http.BodyRead events <->
        exists response : http.Response,
          http.answer (Client example.rt (example.answering example.notFound))
                      example.userRequest
          = (Some response, None)
          /\ http.StatusCode response = http.StatusOK).
Proof.
  refine (FetchUser_closes_body_iff
            example.rt (example.answering example.notFound) example.authorized []
            example.bareRequest _ _).
  - discriminate.
  - reflexivity.
Defined.

Lemma FetchUser_user_of_session_witness :
  exists sess : Session,
    forgeSession (Some example.authorized) = forgeSession (Some sess)
    /\ goth.AccessToken
         (profileUser example.provider example.authorized zeroProfile)
       = AccessToken sess
    /\ goth.RefreshToken
         (profileUser example.provider example.authorized zeroProfile)
       = RefreshToken sess
    /\ goth.ExpiresAt
         (profileUser example.provider example.authorized zeroProfile)
       = ExpiresAt sess
    /\ goth.Provider
         (profileUser example.provider example.authorized zeroProfile)
       = Name (example.answering (example.ok "null")).
Proof.
  refine (FetchUser_user_of_session
            example.rt (example.answering (example.ok "null"))
            (forgeSession (Some example.authorized))
            [] [http.Sent example.userRequest; http.BodyRead]
            (profileUser example.provider example.authorized zeroProfile)
            None _).
  vm_compute. reflexivity.
Defined.

Lemma FetchUser_ignores_credentials_witness :
  FetchUser example.rt
            (SetName (New "another-id" "another-secret" "/bar" ["data:write"])
                     "autodeskforge")
            (forgeSession
               (Some {| AuthURL := "https://example.com/elsewhere";
                        AccessToken := AccessToken example.authorized;
                        RefreshToken := RefreshToken example.authorized;
                        ExpiresAt := ExpiresAt example.authorized |})) []
  = FetchUser example.rt example.provider
              (forgeSession (Some example.authorized)) [].
Proof.
  refine (FetchUser_ignores_credentials
            example.rt example.provider
            (SetName (New "another-id" "another-secret" "/bar" ["data:write"])
                     "autodeskforge")
            example.authorized "https://example.com/elsewhere" [] _ _);
    reflexivity.
Defined.

Lemma FetchUser_empty_profile_witness :
  FetchUser example.rt (example.answering (example.ok "{}"))
            (forgeSession (Some example.authorized)) [] =
  (returns (sessionUser (example.answering (example.ok "{}")) example.authorized,
            None),
   [http.Sent example.userRequest; http.BodyRead]).
Proof.
  refine (FetchUser_empty_profile
            example.rt (example.answering (example.ok "{}")) example.authorized []
            example.bareRequest (example.ok "{}") _ _ _ _ _ _).
  - discriminate.
  - reflexivity.
  - reflexivity.
  - reflexivity.
  - reflexivity.
  - right. exists []. split; [vm_compute|]; reflexivity.
Defined.

Lemma Decode_profile_any_case_witness :
  json.Decode scanner.scan profileType profileFields example.profileText
              zeroProfile
  = json.Decode scanner.scan profileType profileFields example.exactText
                zeroProfile.
Proof.
  refine (Decode_profile_any_case
            scanner.scan example.exactText example.profileText
            example.endpointSpelling example.exactMembers _ _ _ _).
  - intros name Hin. simpl in Hin.
    repeat (destruct Hin as [<-|Hin]; [reflexivity|]). contradiction.
  - unfold example.exactMembers.
    repeat (apply Forall_cons; [cbn; auto 12|]). apply Forall_nil.
  - vm_compute. reflexivity.
  - vm_compute. reflexivity.
Defined.

Lemma FetchUser_member_of_wrong_kind_fails_witness :
  exists err : error,
    FetchUser example.rt (example.answering (example.ok example.numericIdText))
              (forgeSession (Some example.authorized)) [] =
    (returns (sessionUser (example.answering (example.ok example.numericIdText))
                          example.authorized,
              Some err),
     [http.Sent example.userRequest; http.BodyRead]).
Proof.
  refine (FetchUser_member_of_wrong_kind_fails
            example.rt (example.answering (example.ok example.numericIdText))
            example.authorized [] example.bareRequest
            (example.ok example.numericIdText)
            [("userName", json.VString "jdoe")]
            [("firstName", json.VString "John")]
            "userId" (json.VNumber "42") _ _ _ _ _ _ _ _).
  - discriminate.
  - reflexivity.
  - reflexivity.
  - reflexivity.
  - reflexivity.
  - vm_compute. reflexivity.
  - left. reflexivity.
  - reflexivity.
Defined.

Lemma constructed_config_fields_witness :
  exists c : oauth2.Config,
    config (SetName example.provider "forge-eu") = Some c
    /\ oauth2.ClientID c = "client-id"
    /\ oauth2.ClientSecret c = "client-secret"
    /\ oauth2.RedirectURL c = "/foo"
    /\ oauth2.TokenURL (oauth2.Endpoint_ c) = tokenURL
    /\ oauth2.AuthURL (oauth2.Endpoint_ c) =
       "https://developer.api.autodesk.com/authentication/v1/authorize?response_type=code&client_id=client-id&redirect_uri=/foo&scope=data:read".
Proof.
  refine (constructed_config_fields (SetName example.provider "forge-eu") _).
  repeat constructor.
Defined.

Lemma FetchUser_passes_errors_on_witness :
  fst (FetchUser example.rt example.provider
                 (forgeSession (Some example.authorized)) [])
  = returns (sessionUser example.provider example.authorized,
             Some (errorString "dial tcp: network is unreachable")).
Proof.
  refine (proj1 (proj2 (FetchUser_passes_errors_on
                          example.rt example.provider example.authorized [] _))
                example.bareRequest None
                (errorString "dial tcp: network is unreachable") _ _).
  - discriminate.
  - reflexivity.
  - reflexivity.
Defined.
